(** * Prayer-time computation of solaris: a shallow embedding

    The repository holds two versions of the same pipeline:
    - [src/utils/salahUtils.ts], which normalises every angle with
      [normalizeAngle] and folds the equation of time, and
    - [src/unnamed/part_000], which uses the bare [%] operator.

    JavaScript numbers are modelled as exact reals extended with the two
    infinities and not-a-number: arithmetic is carried out without rounding
    and without a sign on zero, every other rule of the language (division by
    zero, remainder with the sign of the dividend, domain of [Math.acos],
    not-a-number propagation, comparisons with not-a-number) is written out.

    The results on ranges, orders and not-a-number do not depend on the
    rounding.  Equalities between computed values do: they are stated to
    within a tolerance that the rounding stays far below, and the remainder
    lines of the assembler are embedded twice more, on binary64 doubles
    ([Binary64], where they are evaluated) and over the reals with a rounding
    after every addition ([Rounded], where their error is bounded). *)

From Stdlib Require Floats.
From Stdlib Require Import Reals Lra Lia ZArith Bool String Ascii List.
Import ListNotations.

Open Scope R_scope.

(** ** JavaScript numbers *)

Module JS.

Inductive number : Type :=
| Fin (r : R)
| PInf
| NInf
| NaN.

(** Unary minus. *)
Definition neg (a : number) : number :=
  match a with
  | Fin x => Fin (- x)
  | PInf => NInf
  | NInf => PInf
  | NaN => NaN
  end.

Definition add (a b : number) : number :=
  match a, b with
  | Fin x, Fin y => Fin (x + y)
  | NaN, _ | _, NaN => NaN
  | PInf, NInf | NInf, PInf => NaN
  | PInf, _ | _, PInf => PInf
  | NInf, _ | _, NInf => NInf
  end.

Definition sub (a b : number) : number := add a (neg b).

Definition mul (a b : number) : number :=
  match a, b with
  | Fin x, Fin y => Fin (x * y)
  | NaN, _ | _, NaN => NaN
  | Fin x, PInf | PInf, Fin x =>
      if Rlt_dec 0 x then PInf else if Rlt_dec x 0 then NInf else NaN
  | Fin x, NInf | NInf, Fin x =>
      if Rlt_dec 0 x then NInf else if Rlt_dec x 0 then PInf else NaN
  | PInf, PInf | NInf, NInf => PInf
  | PInf, NInf | NInf, PInf => NInf
  end.

Definition div (a b : number) : number :=
  match a, b with
  | NaN, _ | _, NaN => NaN
  | Fin x, Fin y =>
      if Req_dec_T y 0
      then (if Rlt_dec 0 x then PInf else if Rlt_dec x 0 then NInf else NaN)
      else Fin (x / y)
  | Fin _, PInf | Fin _, NInf => Fin 0
  | PInf, Fin y => if Rlt_dec y 0 then NInf else PInf
  | NInf, Fin y => if Rlt_dec y 0 then PInf else NInf
  | _, _ => NaN
  end.

(** Rounding towards zero, the quotient of the [%] operator. *)
Definition trunc (x : R) : Z :=
  if Rle_dec 0 x then Zfloor x else Zceil x.

Definition Rrem (x y : R) : R := x - y * IZR (trunc (x / y)).

(** The [%] operator: the result has the sign of the dividend. *)
Definition rem (a b : number) : number :=
  match a, b with
  | Fin x, Fin y => if Req_dec_T y 0 then NaN else Fin (Rrem x y)
  | Fin x, PInf | Fin x, NInf => Fin x
  | _, _ => NaN
  end.

Definition lt (a b : number) : bool :=
  match a, b with
  | Fin x, Fin y => if Rlt_dec x y then true else false
  | NInf, Fin _ | NInf, PInf | Fin _, PInf => true
  | _, _ => false
  end.

Definition gt (a b : number) : bool := lt b a.

End JS.

Export JS.
Coercion Fin : R >-> number.

Declare Scope js_scope.
Delimit Scope js_scope with js.
Bind Scope js_scope with number.
Notation "a + b" := (add a b) : js_scope.
Notation "a - b" := (sub a b) : js_scope.
Notation "a * b" := (mul a b) : js_scope.
Notation "a / b" := (div a b) : js_scope.
Notation "- a" := (neg a) : js_scope.
Notation "a 'mod' b" := (rem a b) (at level 40, no associativity) : js_scope.
Notation "a <? b" := (lt a b) (at level 70, no associativity) : js_scope.
Notation "a >? b" := (gt a b) (at level 70, no associativity) : js_scope.

(** ** The [Math] object *)

Module Math.

(** The real number; [Math.PI] of the language is the double nearest to
    it.  A quarter turn has cosine 0 here and 6.1e-17 in the code: at the
    poles the argument of the arc cosine is a division by zero here and a
    quotient of two numbers in the code. *)
Definition PI : number := Fin Rtrigo1.PI.

Definition sin (a : number) : number :=
  match a with Fin x => Fin (Rtrigo_def.sin x) | _ => NaN end.

Definition cos (a : number) : number :=
  match a with Fin x => Fin (Rtrigo_def.cos x) | _ => NaN end.

(** The tangent has poles where the cosine vanishes; there the quotient of
    the language's division is taken. *)
Definition tan (a : number) : number := div (sin a) (cos a).

Definition asin (a : number) : number :=
  match a with
  | Fin x =>
      if Rle_dec (-1) x then if Rle_dec x 1 then Fin (Ratan.asin x) else NaN
      else NaN
  | _ => NaN
  end.

Definition acos (a : number) : number :=
  match a with
  | Fin x =>
      if Rle_dec (-1) x then if Rle_dec x 1 then Fin (Ratan.acos x) else NaN
      else NaN
  | _ => NaN
  end.

Definition atan (a : number) : number :=
  match a with
  | Fin x => Fin (Ratan.atan x)
  | PInf => Fin (Rtrigo1.PI / 2)
  | NInf => Fin (- (Rtrigo1.PI / 2))
  | NaN => NaN
  end.

(** [Math.atan2 y x] on finite arguments. *)
Definition Ratan2 (y x : R) : R :=
  if Rlt_dec 0 x then Ratan.atan (y / x)
  else if Rlt_dec x 0 then
    (if Rle_dec 0 y then Ratan.atan (y / x) + Rtrigo1.PI
     else Ratan.atan (y / x) - Rtrigo1.PI)
  else if Rlt_dec 0 y then Rtrigo1.PI / 2
  else if Rlt_dec y 0 then - (Rtrigo1.PI / 2)
  else 0.

Definition atan2 (b a : number) : number :=
  match b, a with
  | NaN, _ | _, NaN => NaN
  | Fin y, Fin x => Fin (Ratan2 y x)
  | Fin y, PInf => Fin 0
  | Fin y, NInf => if Rle_dec 0 y then Fin Rtrigo1.PI else Fin (- Rtrigo1.PI)
  | PInf, Fin _ => Fin (Rtrigo1.PI / 2)
  | NInf, Fin _ => Fin (- (Rtrigo1.PI / 2))
  | PInf, PInf => Fin (Rtrigo1.PI / 4)
  | PInf, NInf => Fin (3 * Rtrigo1.PI / 4)
  | NInf, PInf => Fin (- (Rtrigo1.PI / 4))
  | NInf, NInf => Fin (- (3 * Rtrigo1.PI / 4))
  end.

Definition abs (a : number) : number :=
  match a with
  | Fin x => Fin (Rabs x)
  | PInf | NInf => PInf
  | NaN => NaN
  end.

End Math.

(** ** The helpers imported from [./utility] *)

Module Utility.

(** Modelled from the spec: [toRadians] of [./utility] is not among the
    sources; the specification gives it as the standard linear conversion
    from degrees to radians. *)
Definition toRadians (degrees : number) : number :=
  (degrees * Math.PI / 180)%js.

(** Modelled from the spec: [toDegrees] of [./utility] is not among the
    sources; the specification gives it as the standard linear conversion
    from radians to degrees. *)
Definition toDegrees (radians : number) : number :=
  (radians * 180 / Math.PI)%js.

End Utility.

Export Utility.

(** ** Results *)

Record SolarParameters : Type := mkSolar {
  declination : number;
  equationOfTime : number
}.

Record PrayerTimes : Type := mkTimes {
  Fajr : number;
  Shuruq : number;
  Dhuhr : number;
  Asr : number;
  Sunset : number;
  Maghrib : number;
  Isha : number
}.

(** A call either returns a value or throws. *)
Inductive completion (A : Type) : Type :=
| Returns (a : A)
| Throws.
Arguments Returns {A} a.
Arguments Throws {A}.

(** ** The hour angle and the assembler

    [calculateHourAngle] and the body of [calculatePrayerTimes] are the same
    text in both files; they are embedded once, the assembler over the solar
    calculator of the file it stands in. *)

(** The argument handed to [Math.acos] by [calculateHourAngle]. *)
Definition hourAngleArg (latitude declination angle : number) : number :=
  let latitudeRad := toRadians latitude in
  ((Math.sin (toRadians angle) -
      Math.sin latitudeRad * Math.sin declination) /
     (Math.cos latitudeRad * Math.cos declination))%js.

Definition calculateHourAngle (latitude declination angle : number) : number :=
  let latitudeRad := toRadians latitude in
  Math.acos
    ((Math.sin (toRadians angle) -
        Math.sin latitudeRad * Math.sin declination) /
       (Math.cos latitudeRad * Math.cos declination))%js.

(** The elevation of the sun at the later Asr and the argument handed to
    [Math.acos] for it. *)
Definition hAsrOf (latitude declination : number) : number :=
  let phi := toRadians latitude in
  let delta := declination in
  Math.atan (1 / (2 + Math.tan (Math.abs (phi - delta))))%js.

Definition asrArg (latitude declination : number) : number :=
  let phi := toRadians latitude in
  let delta := declination in
  ((Math.sin (hAsrOf latitude declination) - Math.sin phi * Math.sin delta) /
     (Math.cos phi * Math.cos delta))%js.

Section Assembler.

(** The host's [Date] objects and [getJulianDate] of [./utility] are not
    among the sources: they are taken as they come, [getJulianDate] as a
    function that answers every [Date] object, the invalid one included,
    with a number.  Whether it throws instead is not known here, and nothing
    below is a statement about it. *)
Variable JSDate : Type.
Variable newDate : string -> JSDate.
Variable getJulianDate : JSDate -> number.

Variable calculateSolarParameters : number -> SolarParameters.

Definition calculatePrayerTimes
    (latitude longitude : number) (date : string) : completion PrayerTimes :=
  let parsedDate := newDate date in
  let julianDate := getJulianDate parsedDate in
  let solar := calculateSolarParameters julianDate in
  let declination := declination solar in
  let equationOfTime := equationOfTime solar in

  let noon := ((12 - equationOfTime - longitude / 15 + 24) mod 24)%js in

  let fajrAngle : number := 15 in
  let ishaAngle : number := 15 in
  let shuruqAngle : number := Fin (-0.833) in

  let fajrHA := calculateHourAngle latitude declination (- fajrAngle)%js in
  let ishaHA := calculateHourAngle latitude declination (- ishaAngle)%js in
  let shuruqHA := calculateHourAngle latitude declination shuruqAngle in

  let fajr := ((noon - toDegrees fajrHA / 15 + 24) mod 24)%js in
  let sunrise := ((noon - toDegrees shuruqHA / 15 + 24) mod 24)%js in
  let sunset := ((noon + toDegrees shuruqHA / 15 + 24) mod 24)%js in
  let isha := ((noon + toDegrees ishaHA / 15 + 24) mod 24)%js in

  let maghribOffset := (3 / 60)%js in
  let maghrib := ((sunset + maghribOffset + 24) mod 24)%js in

  let phi := toRadians latitude in
  let delta := declination in

  let hAsr := Math.atan (1 / (2 + Math.tan (Math.abs (phi - delta))))%js in

  let asrHA :=
    Math.acos
      ((Math.sin hAsr - Math.sin phi * Math.sin delta) /
         (Math.cos phi * Math.cos delta))%js in

  let asr := ((noon + toDegrees asrHA / 15 + 24) mod 24)%js in

  Returns
    {| Fajr := fajr;
       Shuruq := sunrise;
       Dhuhr := noon;
       Asr := asr;
       Sunset := sunset;
       Maghrib := maghrib;
       Isha := isha |}.

End Assembler.

(** ** [src/utils/salahUtils.ts] *)

Module SalahUtils.

Definition normalizeAngle (deg : number) : number :=
  (((deg mod 360) + 360) mod 360)%js.

Definition D (julianDate : number) : number := (julianDate - 2451545.0)%js.

Definition gDeg (julianDate : number) : number :=
  normalizeAngle (357.529 + 0.98560028 * D julianDate)%js.

Definition qDeg (julianDate : number) : number :=
  normalizeAngle (280.459 + 0.98564736 * D julianDate)%js.

Definition LDeg (julianDate : number) : number :=
  normalizeAngle
    (qDeg julianDate +
       1.915 * Math.sin (toRadians (gDeg julianDate)) +
       0.02 * Math.sin (2 * toRadians (gDeg julianDate)))%js.

Definition epsilon (julianDate : number) : number :=
  toRadians (23.439 - 0.00000036 * D julianDate)%js.

Definition RAdeg (julianDate : number) : number :=
  let RAdeg :=
    toDegrees
      (Math.atan2
         (Math.cos (epsilon julianDate) *
            Math.sin (toRadians (LDeg julianDate)))%js
         (Math.cos (toRadians (LDeg julianDate)))) in
  normalizeAngle RAdeg.

Definition RAhrs (julianDate : number) : number := (RAdeg julianDate / 15)%js.

Definition calculateSolarParameters (julianDate : number) : SolarParameters :=
  let declination :=
    Math.asin
      (Math.sin (epsilon julianDate) *
         Math.sin (toRadians (LDeg julianDate)))%js in
  let equationOfTime := (qDeg julianDate / 15 - RAhrs julianDate)%js in
  let equationOfTime :=
    if (equationOfTime >? 12)%js then (equationOfTime - 24)%js
    else equationOfTime in
  let equationOfTime :=
    if (equationOfTime <? Fin (-12))%js then (equationOfTime + 24)%js
    else equationOfTime in
  {| declination := declination; equationOfTime := equationOfTime |}.

Definition calculatePrayerTimes {JSDate : Type}
    (newDate : string -> JSDate) (getJulianDate : JSDate -> number) :=
  calculatePrayerTimes JSDate newDate getJulianDate calculateSolarParameters.

End SalahUtils.

(** ** [src/unnamed/part_000] *)

Module Part000.

Definition D (julianDate : number) : number := (julianDate - 2451545.0)%js.

Definition g (julianDate : number) : number :=
  toRadians ((357.529 + 0.98560028 * D julianDate) mod 360)%js.

Definition q (julianDate : number) : number :=
  ((280.459 + 0.98564736 * D julianDate) mod 360)%js.

Definition L (julianDate : number) : number :=
  ((q julianDate + 1.915 * Math.sin (g julianDate) +
      0.02 * Math.sin (2 * g julianDate)) mod 360)%js.

Definition epsilon (julianDate : number) : number :=
  toRadians (23.439 - 0.00000036 * D julianDate)%js.

Definition RA (julianDate : number) : number :=
  (toDegrees
     (Math.atan2
        (Math.cos (epsilon julianDate) * Math.sin (toRadians (L julianDate)))
        (Math.cos (toRadians (L julianDate)))) / 15)%js.

Definition calculateSolarParameters (julianDate : number) : SolarParameters :=
  let declination :=
    Math.asin
      (Math.sin (epsilon julianDate) *
         Math.sin (toRadians (L julianDate)))%js in
  let equationOfTime :=
    ((q julianDate / 15 - RA julianDate + 24) mod 24)%js in
  {| declination := declination; equationOfTime := equationOfTime |}.

Definition calculatePrayerTimes {JSDate : Type}
    (newDate : string -> JSDate) (getJulianDate : JSDate -> number) :=
  calculatePrayerTimes JSDate newDate getJulianDate calculateSolarParameters.

End Part000.

(** * The pipeline on real numbers

    On a finite Julian date every intermediate value of the two solar
    calculators is a finite number; the definitions below are those values,
    each the real-number reading of the local of the same name. *)

(** ** [salahUtils.ts] *)
Module SalahReal.

Definition norm (x : R) : R := Rrem (Rrem x 360 + 360) 360.

Definition Dr (jd : R) : R := jd - 2451545.0.
Definition g (jd : R) : R := norm (357.529 + 0.98560028 * Dr jd).
Definition q (jd : R) : R := norm (280.459 + 0.98564736 * Dr jd).
Definition L (jd : R) : R :=
  norm (q jd + 1.915 * sin (g jd * PI / 180) +
          0.02 * sin (2 * (g jd * PI / 180))).
Definition eps (jd : R) : R := (23.439 - 0.00000036 * Dr jd) * PI / 180.
Definition RA (jd : R) : R :=
  norm (Math.Ratan2 (cos (eps jd) * sin (L jd * PI / 180))
          (cos (L jd * PI / 180)) * 180 / PI).
Definition decl (jd : R) : R := asin (sin (eps jd) * sin (L jd * PI / 180)).
Definition raw (jd : R) : R := q jd / 15 - RA jd / 15.
Definition fold (e : R) : R :=
  let e1 := if Rlt_dec 12 e then e - 24 else e in
  if Rlt_dec e1 (-12) then e1 + 24 else e1.
Definition eot (jd : R) : R := fold (raw jd).

End SalahReal.

(** ** [part_000] *)

Module NaiveReal.

Definition Dr (jd : R) : R := jd - 2451545.0.
Definition g (jd : R) : R := Rrem (357.529 + 0.98560028 * Dr jd) 360 * PI / 180.
Definition q (jd : R) : R := Rrem (280.459 + 0.98564736 * Dr jd) 360.
Definition L (jd : R) : R :=
  Rrem (q jd + 1.915 * sin (g jd) + 0.02 * sin (2 * g jd)) 360.
Definition eps (jd : R) : R := (23.439 - 0.00000036 * Dr jd) * PI / 180.
Definition RA (jd : R) : R :=
  Math.Ratan2 (cos (eps jd) * sin (L jd * PI / 180))
    (cos (L jd * PI / 180)) * 180 / PI / 15.
Definition decl (jd : R) : R := asin (sin (eps jd) * sin (L jd * PI / 180)).
Definition eot (jd : R) : R := Rrem (q jd / 15 - RA jd + 24) 24.

End NaiveReal.

(** ** The times of the assembler, from a finite noon and hour angle *)

Module TimesReal.
Definition noon (e lon : R) : R := Rrem (12 - e - lon / 15 + 24) 24.
Definition before (noon h : R) : R := Rrem (noon - h * 180 / PI / 15 + 24) 24.
Definition after (noon h : R) : R := Rrem (noon + h * 180 / PI / 15 + 24) 24.
Definition maghrib (sunset : R) : R := Rrem (sunset + 3 / 60 + 24) 24.
End TimesReal.

(** * The remainder lines of the assembler and their rounding

    The lines that take a time into the day have one shape, in both files:
    [(noon - toDegrees(HA) / 15 + 24) % 24] for Fajr and Shuruq,
    [(noon + toDegrees(HA) / 15 + 24) % 24] for Sunset and Isha, and
    [(sunset + maghribOffset + 24) % 24] for Maghrib.  On doubles each of the
    two additions rounds and the remainder does not. *)

(** ** On binary64 doubles *)

Module Binary64.

Import Floats.
Local Open Scope float_scope.
Set Warnings "-inexact-float".

(** The [% 24] of the language on a double of [0, 72): the remainder is the
    argument less 0, 24 or 48, a double itself, which the subtraction
    returns without rounding.  The lines below are only evaluated on such
    arguments; any other is answered with not-a-number. *)
Definition rem24 (x : float) : float :=
  if x <? 0 then nan
  else if x <? 24 then x
  else if x <? 48 then x - 24
  else if x <? 72 then x - 48
  else nan.

(** The lines of Shuruq and Sunset (of Fajr and Isha), from the noon and from
    the double [toDegrees(HA) / 15] they share. *)
Definition before (noon offset : float) : float := rem24 (noon - offset + 24).
Definition after (noon offset : float) : float := rem24 (noon + offset + 24).

(** The line of Maghrib. *)
Definition maghrib (sunset : float) : float := rem24 (sunset + 3 / 60 + 24).

(** [frac24] as the specification words it, and its argument for Maghrib. *)
Definition frac24 (x : float) : float := rem24 (rem24 x + 24).


(** A double as a whole number of units of 2^-60, when it is one. *)
Definition units (x : float) : option Z :=
  match Prim2SF x with
  | S754_zero _ => Some 0%Z
  | S754_finite s m e =>
      if (-60 <=? e)%Z
      then Some ((if s then -1 else 1) * Z.pos m * 2 ^ (e + 60))%Z
      else None
  | _ => None
  end.

Definition noonExample : float := 9.403447668836092.
Definition offsetExample : float := 6.75.

End Binary64.

(** ** Over the reals, with a rounding after every operation *)

Module Rounded.

(** The unit roundoff of binary64 and half the distance between two
    subnormal doubles. *)
Definition u : R := / 2 ^ 53.
Definition eta : R := / 2 ^ 1075.

(** A rounding in the standard model of floating-point arithmetic: short of
    overflow, the rounded value of [x] is [x] with a relative error of at
    most [u], or an absolute error of at most [eta] where the doubles are
    subnormal.  Rounding to nearest is one. *)
Definition standardModel (rnd : R -> R) : Prop :=
  forall x : R, Rabs x <= 2 ^ 1023 -> Rabs (rnd x - x) <= u * Rabs x + eta.

(** The same lines, [rnd] after each addition and subtraction, the
    remainder exact. *)
Definition before (rnd : R -> R) (noon offset : R) : R :=
  Rrem (rnd (rnd (noon - offset) + 24)) 24.

Definition after (rnd : R -> R) (noon offset : R) : R :=
  Rrem (rnd (rnd (noon + offset) + 24)) 24.

Definition maghrib (rnd : R -> R) (sunset : R) : R :=
  Rrem (rnd (rnd (sunset + rnd (3 / 60)) + 24)) 24.

(** [frac24] as the specification words it. *)
Definition frac24 (rnd : R -> R) (x : R) : R :=
  Rrem (rnd (Rrem x 24 + 24)) 24.

End Rounded.

(** * Vocabulary of the specification *)

(** The argument of [Math.acos] is a finite number of [-1, 1]. *)
Definition acosDomain (n : number) : Prop :=
  exists x, n = Fin x /\ -1 <= x <= 1.

(** [frac24] as the specification words it. *)
Definition frac24 (x : number) : number := (((x mod 24) + 24) mod 24)%js.

(** Equality modulo twenty-four hours of two finite numbers. *)
Definition congruent24 (a b : number) : Prop :=
  exists (x y : R) (k : Z), a = Fin x /\ b = Fin y /\ x - y = 24 * IZR k.

(** One billionth, of an hour or of a radian: some ten thousand times the
    rounding error of a sum of doubles the size of a count of hours. *)
Definition tolerance : R := / 1000000000.

(** Equality modulo twenty-four hours of two finite numbers, to within the
    tolerance. *)
Definition near24 (a b : number) : Prop :=
  exists (x y : R) (k : Z),
    a = Fin x /\ b = Fin y /\ Rabs (x - y - 24 * IZR k) <= tolerance.

(** A time of day: a finite number of hours in [0, 24). *)
Definition inDay (n : number) : Prop :=
  exists x : R, n = Fin x /\ 0 <= x < 24.

Definition allInDay (t : PrayerTimes) : Prop :=
  inDay (Fajr t) /\ inDay (Shuruq t) /\ inDay (Dhuhr t) /\ inDay (Asr t) /\
  inDay (Sunset t) /\ inDay (Maghrib t) /\ inDay (Isha t).

(** A time of day or not-a-number, which is what a time is when its hour
    angle is undefined; Dhuhr has no hour angle. *)
Definition inDayOrNaN (n : number) : Prop := n = NaN \/ inDay n.

Definition allInDayOrNaN (t : PrayerTimes) : Prop :=
  inDayOrNaN (Fajr t) /\ inDayOrNaN (Shuruq t) /\ inDay (Dhuhr t) /\
  inDayOrNaN (Asr t) /\ inDayOrNaN (Sunset t) /\ inDayOrNaN (Maghrib t) /\
  inDayOrNaN (Isha t).

Definition allNaN : PrayerTimes :=
  {| Fajr := NaN; Shuruq := NaN; Dhuhr := NaN; Asr := NaN;
     Sunset := NaN; Maghrib := NaN; Isha := NaN |}.

(** A date string of the documented shape, four digits, two digits and two
    digits separated by hyphens. *)
Definition isDigit (c : ascii) : bool :=
  (48 <=? nat_of_ascii c)%nat && (nat_of_ascii c <=? 57)%nat.

Definition isHyphen (c : ascii) : bool := (nat_of_ascii c =? 45)%nat.

Definition wellFormedDate (date : string) : bool :=
  match list_ascii_of_string date with
  | [y1; y2; y3; y4; h1; m1; m2; h2; d1; d2] =>
      isDigit y1 && isDigit y2 && isDigit y3 && isDigit y4 && isHyphen h1 &&
      isDigit m1 && isDigit m2 && isHyphen h2 && isDigit d1 && isDigit d2
  | _ => false
  end.

(** Coordinates of the documented ranges. *)
Definition validCoordinates (latitude longitude : number) : Prop :=
  exists x y : R,
    latitude = Fin x /\ longitude = Fin y /\
    -90 <= x <= 90 /\ -180 <= y <= 180.

(** Julian dates of the instants a [Date] object can hold: a hundred million
    days on either side of 1 January 1970. *)
Definition representableDate (jd : R) : Prop :=
  2440587.5 - 100000000 <= jd <= 2440587.5 + 100000000.

(** The Julian date of 29 June 2000, noon: 180 days after J2000.0. *)
Definition jdMidYear : R := 2451725.

(** The Julian date of 27 November 1998, noon: 400 days before J2000.0. *)
Definition jdBeforeEpoch : R := 2451145.

(** A finite number, neither an infinity nor not-a-number. *)
Definition finite (a : number) : Prop := exists r : R, a = Fin r.





(** * Arithmetic of the model *)

Section Remainder.

Lemma quotient_nonneg (x m : R) : 0 < m -> 0 <= x -> 0 <= x / m.
Proof.
  intros Hm Hx. pose proof (Rinv_0_lt_compat m Hm). unfold Rdiv. nra.
Qed.

Lemma trunc_nonneg (x : R) :
  0 <= x -> IZR (trunc x) <= x < IZR (trunc x) + 1.
Proof.
  intros Hx. unfold trunc. destruct (Rle_dec 0 x) as [_|n]; [|lra].
  apply Zfloor_bound.
Qed.

Lemma trunc_nonpos (x : R) :
  x <= 0 -> IZR (trunc x) - 1 < x <= IZR (trunc x).
Proof.
  intros Hx. unfold trunc. destruct (Rle_dec 0 x) as [Hle|_].
  - assert (x = 0) by lra. subst x. rewrite ZfloorZ. lra.
  - apply Zceil_bound.
Qed.

Lemma Rrem_eq (x m : R) (k : Z) :
  0 < m -> 0 <= x -> 0 <= x - m * IZR k < m -> Rrem x m = x - m * IZR k.
Proof.
  intros Hm Hx Hk. unfold Rrem.
  assert (Ht : 0 <= x / m) by (apply quotient_nonneg; lra).
  assert (Hxm : x = x / m * m) by (field; lra).
  assert (E : trunc (x / m) = k).
  { unfold trunc. destruct (Rle_dec 0 (x / m)) as [_|n]; [|lra].
    apply Zfloor_eq. set (t := x / m) in *. split; nra. }
  now rewrite E.
Qed.

Lemma Rrem_eq_neg (x m : R) (k : Z) :
  0 < m -> x <= 0 -> - m < x - m * IZR k <= 0 -> Rrem x m = x - m * IZR k.
Proof.
  intros Hm Hx Hk. unfold Rrem.
  assert (Hxm : x = x / m * m) by (field; lra).
  assert (Ht : x / m <= 0).
  { set (t := x / m) in *. nra. }
  assert (E : trunc (x / m) = k).
  { unfold trunc. destruct (Rle_dec 0 (x / m)) as [Hle|_].
    - assert (Hz : x / m = 0) by lra. rewrite Hz in *. rewrite ZfloorZ.
      assert (x = 0) by lra. subst x.
      apply eq_IZR.
      assert (- 1 < IZR k) by nra. assert (IZR k < 1) by nra.
      assert (Hk1 : (-1 < k)%Z) by (apply lt_IZR; lra).
      assert (Hk2 : (k < 1)%Z) by (apply lt_IZR; lra).
      replace k with 0%Z by lia. reflexivity.
    - apply Zceil_eq. set (t := x / m) in *. split; nra. }
  now rewrite E.
Qed.

Lemma Rrem_small (x m : R) : 0 <= x < m -> Rrem x m = x.
Proof.
  intros H. rewrite (Rrem_eq x m 0); lra.
Qed.

Lemma Rrem_small_neg (x m : R) : - m < x <= 0 -> Rrem x m = x.
Proof.
  intros H. rewrite (Rrem_eq_neg x m 0); lra.
Qed.

Lemma Rrem_nonneg (x m : R) : 0 < m -> 0 <= x -> 0 <= Rrem x m < m.
Proof.
  intros Hm Hx. unfold Rrem.
  assert (Ht : 0 <= x / m) by (apply quotient_nonneg; lra).
  assert (Hxm : x = x / m * m) by (field; lra).
  pose proof (trunc_nonneg _ Ht) as Hb.
  set (t := x / m) in *. set (k := IZR (trunc t)) in *. split; nra.
Qed.

Lemma Rrem_nonpos (x m : R) : 0 < m -> x <= 0 -> - m < Rrem x m <= 0.
Proof.
  intros Hm Hx. unfold Rrem.
  assert (Hxm : x = x / m * m) by (field; lra).
  assert (Ht : x / m <= 0).
  { set (t := x / m) in *. nra. }
  pose proof (trunc_nonpos _ Ht) as Hb.
  set (t := x / m) in *. set (k := IZR (trunc t)) in *. split; nra.
Qed.

Lemma Rrem_bound (x m : R) : 0 < m -> - m < Rrem x m < m.
Proof.
  intros Hm. destruct (Rle_dec 0 x) as [Hx|Hx].
  - pose proof (Rrem_nonneg x m Hm Hx). lra.
  - assert (Hx' : x <= 0) by lra. pose proof (Rrem_nonpos x m Hm Hx'). lra.
Qed.

(** The remainder differs from the dividend by a whole multiple of the
    divisor. *)
Lemma Rrem_multiple (x m : R) : exists k : Z, Rrem x m = x - m * IZR k.
Proof. exists (trunc (x / m)). reflexivity. Qed.

Lemma Rabs_le_inv (x a : R) : Rabs x <= a -> - a <= x <= a.
Proof.
  intros H. unfold Rabs in H. destruct (Rcase_abs x); lra.
Qed.

End Remainder.

Section Evaluation.

Lemma div_Fin (x y : R) : y <> 0 -> div (Fin x) (Fin y) = Fin (x / y).
Proof.
  intros Hy. unfold div. destruct (Req_dec_T y 0); [contradiction|reflexivity].
Qed.

Lemma rem_Fin (x y : R) : y <> 0 -> rem (Fin x) (Fin y) = Fin (Rrem x y).
Proof.
  intros Hy. unfold rem. destruct (Req_dec_T y 0); [contradiction|reflexivity].
Qed.

Lemma rem_24 (x : R) : rem (Fin x) (Fin 24) = Fin (Rrem x 24).
Proof. apply rem_Fin. lra. Qed.

Lemma rem_360 (x : R) : rem (Fin x) (Fin 360) = Fin (Rrem x 360).
Proof. apply rem_Fin. lra. Qed.

Lemma div_15 (x : R) : div (Fin x) (Fin 15) = Fin (x / 15).
Proof. apply div_Fin. lra. Qed.

Lemma toRadians_Fin (x : R) : toRadians (Fin x) = Fin (x * PI / 180).
Proof. unfold toRadians, Math.PI. cbn [mul]. apply div_Fin. lra. Qed.

Lemma toDegrees_Fin (x : R) : toDegrees (Fin x) = Fin (x * 180 / PI).
Proof.
  unfold toDegrees, Math.PI. cbn [mul]. apply div_Fin. apply PI_neq0.
Qed.

Lemma acos_Fin (x : R) :
  -1 <= x <= 1 -> Math.acos (Fin x) = Fin (acos x).
Proof.
  intros [H1 H2]. unfold Math.acos.
  destruct (Rle_dec (-1) x); [|contradiction].
  destruct (Rle_dec x 1); [reflexivity|contradiction].
Qed.

Lemma asin_Fin (x : R) :
  -1 <= x <= 1 -> Math.asin (Fin x) = Fin (asin x).
Proof.
  intros [H1 H2]. unfold Math.asin.
  destruct (Rle_dec (-1) x); [|contradiction].
  destruct (Rle_dec x 1); [reflexivity|contradiction].
Qed.


End Evaluation.

(** * The solar calculators on a finite Julian date *)

Lemma norm_range (x : R) : 0 <= SalahReal.norm x < 360.
Proof.
  unfold SalahReal.norm.
  pose proof (Rrem_bound x 360 ltac:(lra)) as Hb.
  apply Rrem_nonneg; lra.
Qed.

Lemma norm_multiple (x : R) : exists k : Z, SalahReal.norm x = x - 360 * IZR k.
Proof.
  unfold SalahReal.norm.
  destruct (Rrem_multiple x 360) as [k1 E1].
  destruct (Rrem_multiple (Rrem x 360 + 360) 360) as [k2 E2].
  exists (k1 + k2 - 1)%Z. rewrite E2, E1, minus_IZR, plus_IZR. lra.
Qed.

Lemma norm_id (x : R) : 0 <= x < 360 -> SalahReal.norm x = x.
Proof.
  intros H. unfold SalahReal.norm.
  rewrite (Rrem_small x 360 H).
  rewrite (Rrem_eq (x + 360) 360 1); lra.
Qed.

Lemma product_in_unit (a b : R) :
  -1 <= a <= 1 -> -1 <= b <= 1 -> -1 <= a * b <= 1.
Proof. intros Ha Hb. split; nra. Qed.

Lemma normalizeAngle_Fin (x : R) :
  SalahUtils.normalizeAngle (Fin x) = Fin (SalahReal.norm x).
Proof.
  unfold SalahUtils.normalizeAngle, SalahReal.norm.
  rewrite rem_360. cbn [add]. now rewrite rem_360.
Qed.

Lemma salah_gDeg_Fin (jd : R) : SalahUtils.gDeg (Fin jd) = Fin (SalahReal.g jd).
Proof.
  unfold SalahUtils.gDeg, SalahUtils.D. cbn [sub add neg mul].
  now rewrite normalizeAngle_Fin.
Qed.

Lemma salah_qDeg_Fin (jd : R) : SalahUtils.qDeg (Fin jd) = Fin (SalahReal.q jd).
Proof.
  unfold SalahUtils.qDeg, SalahUtils.D. cbn [sub add neg mul].
  now rewrite normalizeAngle_Fin.
Qed.

Lemma salah_LDeg_Fin (jd : R) : SalahUtils.LDeg (Fin jd) = Fin (SalahReal.L jd).
Proof.
  unfold SalahUtils.LDeg. rewrite salah_qDeg_Fin, salah_gDeg_Fin.
  rewrite toRadians_Fin. cbn [Math.sin mul add].
  now rewrite normalizeAngle_Fin.
Qed.

Lemma salah_epsilon_Fin (jd : R) :
  SalahUtils.epsilon (Fin jd) = Fin (SalahReal.eps jd).
Proof.
  unfold SalahUtils.epsilon, SalahUtils.D. cbn [sub add neg mul].
  now rewrite toRadians_Fin.
Qed.

Lemma salah_RAdeg_Fin (jd : R) :
  SalahUtils.RAdeg (Fin jd) = Fin (SalahReal.RA jd).
Proof.
  unfold SalahUtils.RAdeg. rewrite salah_epsilon_Fin, salah_LDeg_Fin.
  rewrite toRadians_Fin. cbn [Math.sin Math.cos mul Math.atan2].
  rewrite toDegrees_Fin. now rewrite normalizeAngle_Fin.
Qed.

Lemma lt_Fin (x y : R) :
  lt (Fin x) (Fin y) = if Rlt_dec x y then true else false.
Proof. reflexivity. Qed.

Lemma salah_solar_Fin (jd : R) :
  SalahUtils.calculateSolarParameters (Fin jd) =
  {| declination := Fin (SalahReal.decl jd);
     equationOfTime := Fin (SalahReal.eot jd) |}.
Proof.
  unfold SalahUtils.calculateSolarParameters, SalahUtils.RAhrs.
  rewrite salah_epsilon_Fin, salah_LDeg_Fin, salah_qDeg_Fin, salah_RAdeg_Fin.
  rewrite toRadians_Fin, !div_15. cbn [Math.sin mul sub add neg].
  rewrite asin_Fin
    by (apply product_in_unit; [apply SIN_bound|apply SIN_bound]).
  f_equal. unfold SalahReal.eot, SalahReal.fold, SalahReal.raw, gt.
  rewrite lt_Fin.
  replace (SalahReal.q jd / 15 + - (SalahReal.RA jd / 15))
    with (SalahReal.q jd / 15 - SalahReal.RA jd / 15) by lra.
  destruct (Rlt_dec 12 _) as [H|H].
  - cbn [add]. rewrite lt_Fin.
    replace (SalahReal.q jd / 15 - SalahReal.RA jd / 15 + - (24))
      with (SalahReal.q jd / 15 - SalahReal.RA jd / 15 - 24) by lra.
    destruct (Rlt_dec _ (-12)); reflexivity.
  - rewrite lt_Fin. destruct (Rlt_dec _ (-12)); reflexivity.
Qed.

Lemma salah_raw_range (jd : R) : -24 < SalahReal.raw jd < 24.
Proof.
  unfold SalahReal.raw, SalahReal.q, SalahReal.RA.
  pose proof (norm_range (280.459 + 0.98564736 * SalahReal.Dr jd)).
  match goal with |- context [SalahReal.norm (?a * 180 / PI)] =>
    pose proof (norm_range (a * 180 / PI)) end.
  lra.
Qed.

Lemma fold_range (e : R) : -24 < e < 24 -> -12 <= SalahReal.fold e <= 12.
Proof.
  intros He. unfold SalahReal.fold.
  destruct (Rlt_dec 12 e); destruct (Rlt_dec _ (-12)); lra.
Qed.

(** The folded equation of time of [salahUtils.ts] stays within twelve
    hours of zero. *)
Lemma salah_eot_range (jd : R) : -12 <= SalahReal.eot jd <= 12.
Proof. apply fold_range, salah_raw_range. Qed.

(** * The assembler on finite inputs *)

Lemma calculateHourAngle_arg (lat decl angle : number) :
  calculateHourAngle lat decl angle = Math.acos (hourAngleArg lat decl angle).
Proof. reflexivity. Qed.

Lemma acos_in_domain (n : number) :
  acosDomain n -> exists h, Math.acos n = Fin h /\ 0 <= h <= PI.
Proof.
  intros (x & -> & Hx). exists (acos x). split.
  - now apply acos_Fin.
  - apply acos_bound.
Qed.

Lemma acos_outside_domain (n : number) : ~ acosDomain n -> Math.acos n = NaN.
Proof.
  intros Hn. destruct n as [x| | |]; try reflexivity.
  unfold Math.acos.
  destruct (Rle_dec (-1) x); [|reflexivity].
  destruct (Rle_dec x 1); [|reflexivity].
  exfalso. apply Hn. exists x. split; [reflexivity|lra].
Qed.

Section AssemblerFinite.

Variable JSDate : Type.
Variable newDate : string -> JSDate.
Variable getJulianDate : JSDate -> number.
Variable solar : number -> SolarParameters.

Lemma assemble_times (lat lon : R) (date : string) (dl e hF hS : R) :
  solar (getJulianDate (newDate date)) =
    {| declination := Fin dl; equationOfTime := Fin e |} ->
  calculateHourAngle (Fin lat) (Fin dl) (- Fin 15)%js = Fin hF ->
  calculateHourAngle (Fin lat) (Fin dl) (Fin (-0.833)) = Fin hS ->
  calculatePrayerTimes JSDate newDate getJulianDate solar
    (Fin lat) (Fin lon) date =
  Returns
    (let noon := TimesReal.noon e lon in
     {| Fajr := Fin (TimesReal.before noon hF);
        Shuruq := Fin (TimesReal.before noon hS);
        Dhuhr := Fin noon;
        Asr := ((Fin noon +
                   toDegrees (Math.acos (asrArg (Fin lat) (Fin dl))) / 15 +
                   24) mod 24)%js;
        Sunset := Fin (TimesReal.after noon hS);
        Maghrib := Fin (TimesReal.maghrib (TimesReal.after noon hS));
        Isha := Fin (TimesReal.after noon hF) |}).
Proof.
  intros Hs HF HS.
  unfold calculatePrayerTimes. rewrite Hs. cbn [declination equationOfTime].
  cbv zeta. rewrite HF, HS.
  change (Math.acos _) with (Math.acos (asrArg (Fin lat) (Fin dl))).
  generalize (Math.acos (asrArg (Fin lat) (Fin dl))). intros asrHA.
  rewrite !toDegrees_Fin, !div_15.
  rewrite (div_Fin 3 60) by lra.
  cbn [sub add neg]. rewrite !rem_24.
  replace (12 + - e + - (lon / 15) + 24) with (12 - e - lon / 15 + 24) by lra.
  fold (TimesReal.noon e lon). generalize (TimesReal.noon e lon). intros noon.
  cbn [sub add neg]. rewrite !rem_24.
  cbn [add]. rewrite !rem_24.
  unfold TimesReal.before, TimesReal.after, TimesReal.maghrib.
  replace (noon + - (hF * 180 / PI / 15) + 24)
    with (noon - hF * 180 / PI / 15 + 24) by lra.
  replace (noon + - (hS * 180 / PI / 15) + 24)
    with (noon - hS * 180 / PI / 15 + 24) by lra.
  reflexivity.
Qed.

Lemma asr_time (noon h : R) (n : number) :
  Math.acos n = Fin h ->
  ((Fin noon + toDegrees (Math.acos n) / 15 + 24) mod 24)%js =
  Fin (TimesReal.after noon h).
Proof.
  intros ->. rewrite toDegrees_Fin, div_15. cbn [add]. now rewrite rem_24.
Qed.

End AssemblerFinite.

(** * The solar calculator of [part_000] *)

Lemma part_g_Fin (jd : R) : Part000.g (Fin jd) = Fin (NaiveReal.g jd).
Proof.
  unfold Part000.g, Part000.D. cbn [sub add neg mul].
  rewrite rem_360. now rewrite toRadians_Fin.
Qed.

Lemma part_q_Fin (jd : R) : Part000.q (Fin jd) = Fin (NaiveReal.q jd).
Proof.
  unfold Part000.q, Part000.D. cbn [sub add neg mul]. now rewrite rem_360.
Qed.

Lemma part_L_Fin (jd : R) : Part000.L (Fin jd) = Fin (NaiveReal.L jd).
Proof.
  unfold Part000.L. rewrite part_q_Fin, part_g_Fin.
  cbn [Math.sin mul add]. now rewrite rem_360.
Qed.

Lemma part_epsilon_Fin (jd : R) :
  Part000.epsilon (Fin jd) = Fin (NaiveReal.eps jd).
Proof.
  unfold Part000.epsilon, Part000.D. cbn [sub add neg mul].
  now rewrite toRadians_Fin.
Qed.

Lemma part_RA_Fin (jd : R) : Part000.RA (Fin jd) = Fin (NaiveReal.RA jd).
Proof.
  unfold Part000.RA. rewrite part_epsilon_Fin, part_L_Fin.
  rewrite toRadians_Fin. cbn [Math.sin Math.cos mul Math.atan2].
  rewrite toDegrees_Fin. now rewrite div_15.
Qed.

Lemma part_solar_Fin (jd : R) :
  Part000.calculateSolarParameters (Fin jd) =
  {| declination := Fin (NaiveReal.decl jd);
     equationOfTime := Fin (NaiveReal.eot jd) |}.
Proof.
  unfold Part000.calculateSolarParameters.
  rewrite part_epsilon_Fin, part_L_Fin, part_q_Fin, part_RA_Fin.
  rewrite toRadians_Fin, !div_15. cbn [Math.sin mul sub add neg].
  rewrite asin_Fin
    by (apply product_in_unit; [apply SIN_bound|apply SIN_bound]).
  rewrite rem_24. unfold NaiveReal.eot. repeat f_equal; lra.
Qed.

Lemma atan_nonpos (x : R) : x <= 0 -> atan x <= 0.
Proof.
  intros [Hx| ->]; [|rewrite atan_0; lra].
  pose proof (atan_increasing x 0 Hx) as H. rewrite atan_0 in H. lra.
Qed.

Lemma atan_nonneg (x : R) : 0 <= x -> 0 <= atan x.
Proof.
  intros [Hx| <-]; [|rewrite atan_0; lra].
  pose proof (atan_increasing 0 x Hx) as H. rewrite atan_0 in H. lra.
Qed.

Lemma Ratan2_range (y x : R) : - PI <= Math.Ratan2 y x <= PI.
Proof.
  unfold Math.Ratan2. pose proof PI_RGT_0 as Hpi.
  pose proof (atan_bound (y / x)) as Hb.
  destruct (Rlt_dec 0 x) as [Hx|Hx]; [lra|].
  destruct (Rlt_dec x 0) as [Hx'|Hx'].
  - pose proof (Rinv_lt_0_compat x Hx') as Hi.
    destruct (Rle_dec 0 y) as [Hy|Hy].
    + assert (y / x <= 0) by (unfold Rdiv; nra).
      pose proof (atan_nonpos (y / x) H). lra.
    + assert (0 <= y / x) by (unfold Rdiv; nra).
      pose proof (atan_nonneg (y / x) H). lra.
  - destruct (Rlt_dec 0 y); [lra|]. destruct (Rlt_dec y 0); lra.
Qed.

Lemma naive_RA_range (jd : R) : -12 <= NaiveReal.RA jd <= 12.
Proof.
  unfold NaiveReal.RA. pose proof PI_RGT_0 as Hpi.
  match goal with |- context [Math.Ratan2 ?a ?b] =>
    pose proof (Ratan2_range a b) as Hr; set (t := Math.Ratan2 a b) in * end.
  assert (E : t * 180 / PI / 15 = 12 * (t / PI)) by (field; lra).
  rewrite E.
  assert (-1 <= t / PI <= 1).
  { pose proof (Rinv_0_lt_compat PI Hpi). unfold Rdiv.
    assert (PI * / PI = 1) by (field; lra). split; nra. }
  lra.
Qed.

(** The wrapped equation of time of [part_000]. *)
Lemma naive_eot_range (jd : R) : -12 < NaiveReal.eot jd < 24.
Proof.
  unfold NaiveReal.eot. pose proof (naive_RA_range jd) as Hra.
  assert (Hq : -24 < NaiveReal.q jd / 15 < 24).
  { unfold NaiveReal.q.
    pose proof (Rrem_bound (280.459 + 0.98564736 * NaiveReal.Dr jd) 360
                  ltac:(lra)). lra. }
  set (x := NaiveReal.q jd / 15 - NaiveReal.RA jd + 24).
  assert (Hx : -12 < x) by (unfold x; lra).
  destruct (Rle_dec 0 x) as [Hp|Hn].
  - pose proof (Rrem_nonneg x 24 ltac:(lra) Hp). lra.
  - rewrite Rrem_small_neg by lra. lra.
Qed.

(** * Properties of the assembler that hold on every input *)


Section Generic.
Variable JSDate : Type.
Variable newDate : string -> JSDate.
Variable getJulianDate : JSDate -> number.
Variable solar : number -> SolarParameters.


Lemma dhuhr_generic (lat1 lat2 lon : number) (date : string) :
  exists t1 t2,
    calculatePrayerTimes JSDate newDate getJulianDate solar lat1 lon date =
      Returns t1 /\
    calculatePrayerTimes JSDate newDate getJulianDate solar lat2 lon date =
      Returns t2 /\
    Dhuhr t1 = Dhuhr t2.
Proof. do 2 eexists. repeat split. Qed.

End Generic.

Lemma hour_angle_defined (lat decl angle : number) :
  acosDomain (hourAngleArg lat decl angle) ->
  exists h, calculateHourAngle lat decl angle = Fin h /\ 0 <= h <= PI.
Proof. intros H. rewrite calculateHourAngle_arg. now apply acos_in_domain. Qed.

Lemma hour_angle_undefined (lat decl angle : number) :
  ~ acosDomain (hourAngleArg lat decl angle) ->
  calculateHourAngle lat decl angle = NaN.
Proof.
  intros H. rewrite calculateHourAngle_arg. now apply acos_outside_domain.
Qed.

Lemma hours_of_angle (h : R) :
  0 <= h <= PI -> 0 <= h * 180 / PI / 15 <= 12.
Proof.
  intros Hh. pose proof PI_RGT_0 as Hpi.
  assert (E : h * 180 / PI / 15 = 12 * (h / PI)) by (field; lra).
  rewrite E.
  assert (0 <= h / PI <= 1).
  { pose proof (Rinv_0_lt_compat PI Hpi). unfold Rdiv.
    assert (PI * / PI = 1) by (field; lra). split; nra. }
  lra.
Qed.

Lemma time_of_nan (noon : number) :
  ((noon - toDegrees NaN / 15 + 24) mod 24)%js = NaN /\
  ((noon + toDegrees NaN / 15 + 24) mod 24)%js = NaN.
Proof. destruct noon; split; reflexivity. Qed.

Section AssemblerProperties.

Variable JSDate : Type.
Variable newDate : string -> JSDate.
Variable getJulianDate : JSDate -> number.
Variable solar : number -> SolarParameters.

Lemma symmetry_generic (lat lon dl e : R) (date : string) :
  solar (getJulianDate (newDate date)) =
    {| declination := Fin dl; equationOfTime := Fin e |} ->
  acosDomain (hourAngleArg (Fin lat) (Fin dl) (- Fin 15)%js) ->
  acosDomain (hourAngleArg (Fin lat) (Fin dl) (Fin (-0.833))) ->
  exists t,
    calculatePrayerTimes JSDate newDate getJulianDate solar
      (Fin lat) (Fin lon) date = Returns t /\
    congruent24 (Dhuhr t - Shuruq t)%js (Sunset t - Dhuhr t)%js /\
    congruent24 (Dhuhr t - Fajr t)%js (Isha t - Dhuhr t)%js.
Proof.
  intros Hs HF HS.
  destruct (hour_angle_defined _ _ _ HF) as (hF & EF & _).
  destruct (hour_angle_defined _ _ _ HS) as (hS & ES & _).
  rewrite (assemble_times _ _ _ _ _ _ _ _ _ _ _ Hs EF ES).
  eexists. split; [reflexivity|].
  cbv zeta. cbn [Dhuhr Shuruq Sunset Fajr Isha sub add neg].
  set (noon := TimesReal.noon e lon).
  unfold TimesReal.before, TimesReal.after.
  split.
  - destruct (Rrem_multiple (noon - hS * 180 / PI / 15 + 24) 24) as [k1 E1].
    destruct (Rrem_multiple (noon + hS * 180 / PI / 15 + 24) 24) as [k2 E2].
    do 2 eexists. exists (k1 + k2 - 2)%Z.
    split; [reflexivity|]. split; [reflexivity|].
    rewrite E1, E2, minus_IZR, plus_IZR. lra.
  - destruct (Rrem_multiple (noon - hF * 180 / PI / 15 + 24) 24) as [k1 E1].
    destruct (Rrem_multiple (noon + hF * 180 / PI / 15 + 24) 24) as [k2 E2].
    do 2 eexists. exists (k1 + k2 - 2)%Z.
    split; [reflexivity|]. split; [reflexivity|].
    rewrite E1, E2, minus_IZR, plus_IZR. lra.
Qed.

Lemma range_generic (lat lon dl e : R) (date : string) :
  solar (getJulianDate (newDate date)) =
    {| declination := Fin dl; equationOfTime := Fin e |} ->
  e < 24 -> lon <= 180 ->
  acosDomain (hourAngleArg (Fin lat) (Fin dl) (- Fin 15)%js) ->
  acosDomain (hourAngleArg (Fin lat) (Fin dl) (Fin (-0.833))) ->
  acosDomain (asrArg (Fin lat) (Fin dl)) ->
  exists t,
    calculatePrayerTimes JSDate newDate getJulianDate solar
      (Fin lat) (Fin lon) date = Returns t /\
    allInDay t.
Proof.
  intros Hs He Hlon HF HS HA.
  destruct (hour_angle_defined _ _ _ HF) as (hF & EF & BF).
  destruct (hour_angle_defined _ _ _ HS) as (hS & ES & BS).
  destruct (acos_in_domain _ HA) as (hA & EA & BA).
  rewrite (assemble_times _ _ _ _ _ _ _ _ _ _ _ Hs EF ES).
  eexists. split; [reflexivity|].
  cbv zeta. unfold allInDay. cbn [Dhuhr Shuruq Sunset Fajr Isha Asr Maghrib].
  rewrite (asr_time _ _ _ EA).
  apply hours_of_angle in BF, BS, BA.
  assert (Hn : 0 <= TimesReal.noon e lon < 24).
  { unfold TimesReal.noon. apply Rrem_nonneg; lra. }
  set (noon := TimesReal.noon e lon) in *.
  unfold TimesReal.maghrib, TimesReal.before, TimesReal.after.
  assert (Hsun : 0 <= Rrem (noon + hS * 180 / PI / 15 + 24) 24 < 24)
    by (apply Rrem_nonneg; lra).
  repeat split; eexists; (split; [reflexivity|]); try (apply Rrem_nonneg; lra).
Qed.

Lemma undefined_fajr_generic (lat lon : number) (date : string) :
  ~ acosDomain
      (hourAngleArg lat
         (declination (solar (getJulianDate (newDate date)))) (- Fin 15)%js) ->
  exists t,
    calculatePrayerTimes JSDate newDate getJulianDate solar lat lon date =
      Returns t /\
    Fajr t = NaN /\ Isha t = NaN.
Proof.
  intros H. apply hour_angle_undefined in H.
  eexists. split; [reflexivity|]. cbn [Fajr Isha].
  change (- (15:number))%js with (- Fin 15)%js.
  rewrite H. split; apply time_of_nan.
Qed.

Lemma nan_date_generic (lat lon : number) (date : string) :
  solar NaN = {| declination := NaN; equationOfTime := NaN |} ->
  getJulianDate (newDate date) = NaN ->
  calculatePrayerTimes JSDate newDate getJulianDate solar lat lon date =
    Returns allNaN.
Proof.
  intros Hs Hj. unfold calculatePrayerTimes. rewrite Hj, Hs. reflexivity.
Qed.

Lemma dhuhr_value (lat : number) (lon dl e : R) (date : string) :
  solar (getJulianDate (newDate date)) =
    {| declination := Fin dl; equationOfTime := Fin e |} ->
  exists t,
    calculatePrayerTimes JSDate newDate getJulianDate solar
      lat (Fin lon) date = Returns t /\
    Dhuhr t = Fin (TimesReal.noon e lon).
Proof.
  intros Hs. eexists. split; [reflexivity|]. cbn [Dhuhr]. rewrite Hs.
  cbn [equationOfTime]. rewrite div_15. cbn [sub add neg]. rewrite rem_24.
  unfold TimesReal.noon. repeat f_equal; lra.
Qed.

End AssemblerProperties.

(** * The two calculators on 29 June 2000 *)

Lemma PI_gt_3 : 3 < PI.
Proof. pose proof PI2_3_2. lra. Qed.

Lemma norm_eq (x : R) (k : Z) :
  0 <= x - 360 * IZR k < 360 -> SalahReal.norm x = x - 360 * IZR k.
Proof.
  intros H. destruct (norm_multiple x) as [k' E].
  pose proof (norm_range x) as Hr. rewrite E in *.
  assert (H1 : (k - k' < 1)%Z) by (apply lt_IZR; rewrite minus_IZR; lra).
  assert (H2 : (-1 < k - k')%Z) by (apply lt_IZR; rewrite minus_IZR; lra).
  replace k' with k by lia. reflexivity.
Qed.

Lemma atan_le (x y : R) : x <= y -> atan x <= atan y.
Proof.
  intros [H| ->]; [|lra]. pose proof (atan_increasing x y H). lra.
Qed.

Lemma midyear_g : SalahReal.g jdMidYear = 174.9370504.
Proof.
  unfold SalahReal.g, SalahReal.Dr, jdMidYear.
  rewrite (norm_eq _ 1); lra.
Qed.

Lemma midyear_q : SalahReal.q jdMidYear = 97.8755248.
Proof.
  unfold SalahReal.q, SalahReal.Dr, jdMidYear.
  rewrite (norm_eq _ 1); lra.
Qed.

(** The equation of the centre is positive while the mean anomaly is in the
    first half of the orbit. *)
Lemma centre_positive (gamma : R) :
  0 < gamma < PI ->
  0 < 1.915 * sin gamma + 0.02 * sin (2 * gamma) <= 1.955.
Proof.
  intros Hg. rewrite sin_2a.
  pose proof (sin_gt_0 gamma ltac:(lra) ltac:(lra)) as Hs.
  pose proof (SIN_bound gamma) as Hsb. pose proof (COS_bound gamma) as Hcb.
  split; nra.
Qed.

Lemma midyear_L : 97.8755248 < SalahReal.L jdMidYear <= 99.8305248.
Proof.
  unfold SalahReal.L. rewrite midyear_g, midyear_q.
  pose proof PI_RGT_0. pose proof PI_4.
  pose proof (centre_positive (174.9370504 * PI / 180) ltac:(lra)) as Hc.
  rewrite norm_id; lra.
Qed.

Lemma midyear_lambda :
  PI / 2 < SalahReal.L jdMidYear * PI / 180 < PI.
Proof. pose proof midyear_L. pose proof PI_RGT_0. split; nra. Qed.

Lemma midyear_eps : 0 < SalahReal.eps jdMidYear < 0.521.
Proof.
  unfold SalahReal.eps, SalahReal.Dr, jdMidYear.
  pose proof PI_RGT_0. pose proof PI_4. lra.
Qed.

Lemma midyear_cos_eps : 0 < cos (SalahReal.eps jdMidYear) <= 1.
Proof.
  pose proof midyear_eps as He. pose proof PI_gt_3.
  split; [apply cos_gt_0; lra|apply COS_bound].
Qed.

(** In the second quadrant the right ascension runs ahead of the ecliptic
    longitude. *)
Lemma atan2_second_quadrant (c lambda : R) :
  0 < c <= 1 -> PI / 2 < lambda < PI ->
  lambda <= Math.Ratan2 (c * sin lambda) (cos lambda) < PI.
Proof.
  intros Hc Hl. remember (lambda - PI) as mu eqn:Emu.
  assert (Hmu : - (PI / 2) < mu < 0) by lra.
  assert (Hsin : sin lambda = - sin mu).
  { replace lambda with (mu + PI) by lra. apply neg_sin. }
  assert (Hcos : cos lambda = - cos mu).
  { replace lambda with (mu + PI) by lra. apply neg_cos. }
  assert (Hcm : 0 < cos mu) by (apply cos_gt_0; lra).
  assert (Htm : tan mu < 0) by (apply tan_lt_0; lra).
  assert (Hsm : sin mu < 0) by (apply sin_lt_0_var; lra).
  unfold Math.Ratan2. rewrite Hsin, Hcos.
  destruct (Rlt_dec 0 (- cos mu)) as [Hx|_]; [lra|].
  destruct (Rlt_dec (- cos mu) 0) as [_|Hx]; [|lra].
  destruct (Rle_dec 0 (c * - sin mu)) as [_|Hy]; [|nra].
  assert (E : c * - sin mu / - cos mu = c * tan mu)
    by (unfold tan; field; lra).
  rewrite E.
  assert (Hle : tan mu <= c * tan mu) by nra.
  assert (Hneg : c * tan mu < 0) by nra.
  pose proof (atan_le _ _ Hle) as H1. rewrite atan_tan in H1 by lra.
  pose proof (atan_increasing _ _ Hneg) as H2. rewrite atan_0 in H2.
  lra.
Qed.

Lemma midyear_RA : SalahReal.L jdMidYear <= SalahReal.RA jdMidYear < 180.
Proof.
  unfold SalahReal.RA.
  pose proof (atan2_second_quadrant _ _ midyear_cos_eps midyear_lambda) as Ha.
  set (A := Math.Ratan2 _ _) in *.
  pose proof PI_RGT_0 as Hpi. pose proof midyear_L as HL.
  pose proof (Rinv_0_lt_compat PI Hpi) as Hi.
  assert (Hone : PI * / PI = 1) by (field; lra).
  assert (HA : SalahReal.L jdMidYear <= A * 180 / PI < 180).
  { unfold Rdiv in *. split; nra. }
  rewrite norm_id; lra.
Qed.

Lemma midyear_raw : -5.5 < SalahReal.raw jdMidYear < 0.
Proof.
  unfold SalahReal.raw. rewrite midyear_q.
  pose proof midyear_L. pose proof midyear_RA. lra.
Qed.

Lemma midyear_eot : SalahReal.eot jdMidYear = SalahReal.raw jdMidYear.
Proof.
  unfold SalahReal.eot, SalahReal.fold. pose proof midyear_raw.
  destruct (Rlt_dec 12 _); [lra|]. destruct (Rlt_dec _ (-12)); [lra|].
  reflexivity.
Qed.

Lemma midyear_sin_decl :
  sin (SalahReal.decl jdMidYear) =
    sin (SalahReal.eps jdMidYear) * sin (SalahReal.L jdMidYear * PI / 180) /\
  0 < sin (SalahReal.eps jdMidYear) * sin (SalahReal.L jdMidYear * PI / 180)
    < 0.521.
Proof.
  pose proof midyear_eps as He. pose proof midyear_lambda as Hl.
  pose proof PI_gt_3.
  assert (H1 : 0 < sin (SalahReal.eps jdMidYear)) by (apply sin_gt_0; lra).
  assert (H2 : sin (SalahReal.eps jdMidYear) < SalahReal.eps jdMidYear)
    by (apply sin_lt_x; lra).
  assert (H3 : 0 < sin (SalahReal.L jdMidYear * PI / 180))
    by (apply sin_gt_0; lra).
  pose proof (SIN_bound (SalahReal.L jdMidYear * PI / 180)) as H4.
  assert (Hu : 0 < sin (SalahReal.eps jdMidYear) *
                   sin (SalahReal.L jdMidYear * PI / 180) < 0.521)
    by (split; nra).
  split; [|exact Hu]. unfold SalahReal.decl. apply sin_asin. lra.
Qed.

Lemma midyear_decl :
  0 < SalahReal.decl jdMidYear < PI / 2 /\
  0 < sin (SalahReal.decl jdMidYear) < 0.521 /\
  0.8 <= cos (SalahReal.decl jdMidYear) <= 1.
Proof.
  destruct midyear_sin_decl as [E Hu]. rewrite <- E in Hu.
  pose proof (asin_bound (sin (SalahReal.eps jdMidYear) *
                          sin (SalahReal.L jdMidYear * PI / 180))) as Hb.
  fold (SalahReal.decl jdMidYear) in Hb.
  pose proof PI_gt_3.
  assert (Hpos : 0 < SalahReal.decl jdMidYear).
  { destruct (Rlt_dec 0 (SalahReal.decl jdMidYear)) as [|Hn]; [assumption|].
    exfalso. destruct (Req_dec (SalahReal.decl jdMidYear) 0) as [Hz|Hz].
    - rewrite Hz, sin_0 in Hu. lra.
    - pose proof (sin_lt_0_var (SalahReal.decl jdMidYear)
                    ltac:(lra) ltac:(lra)).
      lra. }
  assert (Hc0 : 0 <= cos (SalahReal.decl jdMidYear)) by (apply cos_ge_0; lra).
  pose proof (sin2_cos2 (SalahReal.decl jdMidYear)) as Hsc. unfold Rsqr in Hsc.
  pose proof (COS_bound (SalahReal.decl jdMidYear)) as Hcb.
  assert (Hc : 0.8 <= cos (SalahReal.decl jdMidYear)) by nra.
  assert (Hlt : SalahReal.decl jdMidYear < PI / 2).
  { destruct Hb as [_ [Hlt|Heq]]; [assumption|].
    rewrite Heq, cos_PI2 in Hc. lra. }
  repeat split; lra.
Qed.

Lemma midyear_naive_g :
  NaiveReal.g jdMidYear = SalahReal.g jdMidYear * PI / 180.
Proof.
  rewrite midyear_g. unfold NaiveReal.g, NaiveReal.Dr, jdMidYear.
  rewrite (Rrem_eq _ 360 1); lra.
Qed.

Lemma midyear_naive_q : NaiveReal.q jdMidYear = SalahReal.q jdMidYear.
Proof.
  rewrite midyear_q. unfold NaiveReal.q, NaiveReal.Dr, jdMidYear.
  rewrite (Rrem_eq _ 360 1); lra.
Qed.

Lemma midyear_naive_L : NaiveReal.L jdMidYear = SalahReal.L jdMidYear.
Proof.
  unfold NaiveReal.L, SalahReal.L.
  rewrite midyear_naive_g, midyear_naive_q, midyear_g, midyear_q.
  pose proof PI_RGT_0. pose proof PI_4.
  pose proof (centre_positive (174.9370504 * PI / 180) ltac:(lra)) as Hc.
  rewrite norm_id by lra. rewrite Rrem_small by lra. reflexivity.
Qed.

Lemma midyear_naive_decl : NaiveReal.decl jdMidYear = SalahReal.decl jdMidYear.
Proof.
  unfold NaiveReal.decl, SalahReal.decl. rewrite midyear_naive_L. reflexivity.
Qed.

Lemma midyear_naive_RA : NaiveReal.RA jdMidYear = SalahReal.RA jdMidYear / 15.
Proof.
  unfold NaiveReal.RA, SalahReal.RA. rewrite midyear_naive_L.
  change (NaiveReal.eps jdMidYear) with (SalahReal.eps jdMidYear).
  pose proof (atan2_second_quadrant _ _ midyear_cos_eps midyear_lambda) as Ha.
  set (A := Math.Ratan2 _ _) in *.
  pose proof PI_RGT_0 as Hpi. pose proof PI_gt_3.
  pose proof (Rinv_0_lt_compat PI Hpi) as Hi.
  assert (Hone : PI * / PI = 1) by (field; lra).
  pose proof midyear_lambda as Hl.
  assert (HA0 : 0 < A < PI) by lra.
  assert (HA : 0 <= A * 180 / PI < 360).
  { clear Ha Hl. unfold Rdiv. split; nra. }
  rewrite norm_id by lra. reflexivity.
Qed.

(** On 29 June 2000 [part_000] returns the equation of time of
    [salahUtils.ts] shifted by a whole day. *)
Lemma midyear_naive_eot :
  NaiveReal.eot jdMidYear = SalahReal.eot jdMidYear + 24.
Proof.
  rewrite midyear_eot. unfold NaiveReal.eot.
  rewrite midyear_naive_q, midyear_naive_RA.
  fold (SalahReal.raw jdMidYear). pose proof midyear_raw.
  rewrite Rrem_small; lra.
Qed.

(** The hour-angle argument on finite inputs, and on the equator. *)
Lemma hourAngleArg_Fin (lat dl a : R) :
  cos (lat * PI / 180) * cos dl <> 0 ->
  hourAngleArg (Fin lat) (Fin dl) (Fin a) =
  Fin ((sin (a * PI / 180) - sin (lat * PI / 180) * sin dl) /
         (cos (lat * PI / 180) * cos dl)).
Proof.
  intros H. unfold hourAngleArg. rewrite !toRadians_Fin.
  cbn [Math.sin Math.cos mul sub add neg]. rewrite div_Fin by assumption.
  f_equal.
Qed.

Lemma hourAngleArg_equator (dl a : R) :
  cos dl <> 0 ->
  hourAngleArg (Fin 0) (Fin dl) (Fin a) = Fin (sin (a * PI / 180) / cos dl).
Proof.
  intros H.
  assert (E : 0 * PI / 180 = 0) by lra.
  rewrite hourAngleArg_Fin; rewrite E, ?sin_0, ?cos_0; [|lra].
  f_equal. field. assumption.
Qed.

Lemma sin_small_negative (a : R) :
  0 < a <= 15 -> - (1 / 3) <= sin (- a * PI / 180) < 0.
Proof.
  intros Ha. pose proof PI_RGT_0. pose proof PI_4.
  replace (- a * PI / 180) with (- (a * PI / 180)) by lra.
  rewrite sin_neg.
  assert (Hx : 0 < a * PI / 180 <= 1 / 3) by (split; nra).
  pose proof (sin_lt_x _ (proj1 Hx)).
  pose proof PI_gt_3.
  pose proof (sin_gt_0 (a * PI / 180) ltac:(lra) ltac:(lra)). lra.
Qed.

Lemma equator_twilight_domain (dl a : R) :
  0.8 <= cos dl -> 0 < a <= 15 ->
  acosDomain (hourAngleArg (Fin 0) (Fin dl) (Fin (- a))).
Proof.
  intros Hc Ha. rewrite hourAngleArg_equator by lra.
  eexists. split; [reflexivity|].
  pose proof (sin_small_negative a Ha) as Hs.
  pose proof (Rinv_0_lt_compat (cos dl) ltac:(lra)) as Hi.
  assert (Hone : cos dl * / cos dl = 1) by (field; lra).
  unfold Rdiv. split; nra.
Qed.

Lemma sin_atan_small (v : R) : 0 < v -> 0 < sin (atan v) <= v.
Proof.
  intros Hv. rewrite sin_atan.
  assert (H1 : 0 <= 1 + v²) by (unfold Rsqr; nra).
  pose proof (sqrt_pos (1 + v²)) as Hp.
  pose proof (sqrt_sqrt _ H1) as Hs.
  set (r := sqrt (1 + v²)) in *. clearbody r. unfold Rsqr in Hs.
  assert (Hr : 1 <= r) by nra.
  pose proof (Rinv_0_lt_compat r ltac:(lra)) as Hi.
  assert (Hone : r * / r = 1) by (field; lra).
  unfold Rdiv. split; nra.
Qed.

Lemma equator_asr_domain (dl : R) :
  0 < dl < PI / 2 -> 0 < sin dl -> 0.8 <= cos dl ->
  acosDomain (asrArg (Fin 0) (Fin dl)).
Proof.
  intros Hd Hs Hc. unfold asrArg, hAsrOf. rewrite toRadians_Fin.
  cbn [sub add neg Math.abs].
  assert (E : Rabs (0 * PI / 180 + - dl) = dl).
  { replace (0 * PI / 180 + - dl) with (- dl) by lra.
    rewrite Rabs_Ropp. apply Rabs_pos_eq. lra. }
  rewrite E. unfold Math.tan. cbn [Math.sin Math.cos].
  rewrite div_Fin by lra. cbn [add].
  pose proof (Rinv_0_lt_compat (cos dl) ltac:(lra)) as Hi.
  assert (Hone : cos dl * / cos dl = 1) by (field; lra).
  assert (Ht : 0 < sin dl / cos dl) by (unfold Rdiv; nra).
  rewrite div_Fin by lra.
  cbn [Math.atan Math.sin Math.cos mul sub add neg].
  assert (Hv : 0 < 1 / (2 + sin dl / cos dl) <= 1 / 2).
  { pose proof (Rinv_0_lt_compat (2 + sin dl / cos dl) ltac:(lra)) as Hi2.
    assert ((2 + sin dl / cos dl) * / (2 + sin dl / cos dl) = 1)
      by (field; lra).
    unfold Rdiv at 1 3. split; nra. }
  pose proof (sin_atan_small _ (proj1 Hv)) as Hsa.
  replace (0 * PI / 180) with 0 by lra. rewrite sin_0, cos_0.
  rewrite div_Fin by lra.
  eexists. split; [reflexivity|].
  set (s := sin (atan (1 / (2 + sin dl / cos dl)))) in *.
  assert (Hs2 : 0 < s <= 1 / 2) by lra. clearbody s.
  replace ((s + - (0 * sin dl)) / (1 * cos dl)) with (s * / cos dl)
    by (field; lra).
  split; nra.
Qed.

(** The three hour angles are defined on the equator on 29 June 2000. *)
Lemma midyear_equator_domains :
  acosDomain
    (hourAngleArg (Fin 0) (Fin (SalahReal.decl jdMidYear)) (- Fin 15)%js) /\
  acosDomain
    (hourAngleArg (Fin 0) (Fin (SalahReal.decl jdMidYear)) (Fin (-0.833))) /\
  acosDomain (asrArg (Fin 0) (Fin (SalahReal.decl jdMidYear))).
Proof.
  destruct midyear_decl as (Hd & Hs & Hc).
  split; [|split].
  - cbn [neg]. apply equator_twilight_domain; lra.
  - replace (-0.833) with (Ropp 0.833) by lra.
    apply equator_twilight_domain; lra.
  - apply equator_asr_domain; lra.
Qed.

(** * Latitudes of the midnight sun *)

(** Where latitude and declination add up to a right angle the sun does not
    go below the horizon: no negative elevation is ever reached. *)
Lemma midnight_sun (lat dl a : R) :
  lat * PI / 180 + dl = PI / 2 ->
  0 < lat * PI / 180 < PI / 2 -> 0 < dl < PI / 2 ->
  sin (a * PI / 180) < 0 ->
  exists x, hourAngleArg (Fin lat) (Fin dl) (Fin a) = Fin x /\ x < -1.
Proof.
  intros Hsum Hl Hd Ha.
  assert (Hcl : 0 < cos (lat * PI / 180)) by (apply cos_gt_0; lra).
  assert (Hcd : 0 < cos dl) by (apply cos_gt_0; lra).
  assert (Hp : 0 < cos (lat * PI / 180) * cos dl) by nra.
  pose proof (cos_plus (lat * PI / 180) dl) as Hc.
  rewrite Hsum, cos_PI2 in Hc.
  rewrite hourAngleArg_Fin by lra.
  eexists. split; [reflexivity|].
  set (p := cos (lat * PI / 180) * cos dl) in *.
  replace (sin (lat * PI / 180) * sin dl) with p by lra.
  pose proof (Rinv_0_lt_compat p Hp) as Hi.
  assert (Hone : p * / p = 1) by (field; lra).
  unfold Rdiv. nra.
Qed.

Lemma below_domain (n : number) (x : R) :
  n = Fin x -> x < -1 -> ~ acosDomain n.
Proof. intros -> Hx (y & E & Hy). injection E as <-. lra. Qed.

Lemma polar_day_undefined (lat dl a : R) :
  lat * PI / 180 + dl = PI / 2 ->
  0 < lat * PI / 180 < PI / 2 -> 0 < dl < PI / 2 ->
  0 < a <= 15 ->
  ~ acosDomain (hourAngleArg (Fin lat) (Fin dl) (Fin (- a))).
Proof.
  intros Hsum Hl Hd Ha.
  destruct (midnight_sun lat dl (- a) Hsum Hl Hd) as (x & E & Hx).
  - apply sin_small_negative. assumption.
  - exact (below_domain _ _ E Hx).
Qed.

Lemma polar_day_70 :
  ~ acosDomain (hourAngleArg (Fin 70) (Fin (PI / 9)) (Fin (- (15)))).
Proof. pose proof PI_RGT_0. apply polar_day_undefined; lra. Qed.

Lemma polar_day_60 :
  ~ acosDomain (hourAngleArg (Fin 60) (Fin (PI / 6)) (Fin (- (0.833)))).
Proof. pose proof PI_RGT_0. apply polar_day_undefined; lra. Qed.

Lemma equinox_equator_domain :
  acosDomain (hourAngleArg (Fin 0) (Fin 0) (Fin (- (15)))).
Proof. apply equator_twilight_domain; rewrite ?cos_0; lra. Qed.

(** * The equation of time of [salahUtils.ts] stays strictly inside *)

Lemma cos_period_Z (x : R) (k : Z) : cos (x + 2 * IZR k * PI) = cos x.
Proof.
  destruct (Z_le_gt_dec 0 k) as [Hk|Hk].
  - rewrite <- (Z2Nat.id k Hk), <- INR_IZR_INZ. apply cos_period.
  - assert (Hk' : (0 <= - k)%Z) by lia.
    rewrite <- (cos_period (x + 2 * IZR k * PI) (Z.to_nat (- k))).
    rewrite INR_IZR_INZ, (Z2Nat.id _ Hk'), opp_IZR. f_equal. lra.
Qed.

Lemma sin_period_Z (x : R) (k : Z) : sin (x + 2 * IZR k * PI) = sin x.
Proof.
  destruct (Z_le_gt_dec 0 k) as [Hk|Hk].
  - rewrite <- (Z2Nat.id k Hk), <- INR_IZR_INZ. apply sin_period.
  - assert (Hk' : (0 <= - k)%Z) by lia.
    rewrite <- (sin_period (x + 2 * IZR k * PI) (Z.to_nat (- k))).
    rewrite INR_IZR_INZ, (Z2Nat.id _ Hk'), opp_IZR. f_equal. lra.
Qed.

Lemma sin_atan_cos (w : R) : sin (atan w) = w * cos (atan w).
Proof.
  pose proof (atan_bound w) as Hb.
  assert (Hc : 0 < cos (atan w)) by (apply cos_gt_0; lra).
  pose proof (tan_atan w) as Ht. unfold tan in Ht.
  rewrite <- Ht at 2. field. lra.
Qed.

Lemma cos_atan_pos (w : R) : 0 < cos (atan w).
Proof. pose proof (atan_bound w). apply cos_gt_0; lra. Qed.

(** With a positive cosine of the obliquity the right ascension stays within
    a quarter turn of the ecliptic longitude. *)
Lemma atan2_alignment (c lambda : R) :
  0 < c ->
  0 < cos (lambda - Math.Ratan2 (c * sin lambda) (cos lambda)).
Proof.
  intros Hc. rewrite cos_minus.
  pose proof (sin2_cos2 lambda) as Hsc. unfold Rsqr in Hsc.
  set (x := cos lambda) in *. set (s := sin lambda) in *.
  assert (Hss : 0 <= s * s) by nra.
  assert (Hcs : 0 <= c * (s * s)) by (apply Rmult_le_pos; lra).
  assert (Hnum : 0 < x * x + c * (s * s)).
  { destruct (Req_dec x 0) as [Hz|Hz].
    - rewrite Hz in *. replace (s * s) with 1 by lra. lra.
    - assert (0 < x * x) by nra. lra. }
  unfold Math.Ratan2.
  destruct (Rlt_dec 0 x) as [Hx|Hx].
  - set (w := c * s / x).
    rewrite sin_atan_cos. pose proof (cos_atan_pos w) as Hp.
    assert (E : x * cos (atan w) + s * (w * cos (atan w)) =
                cos (atan w) * ((x * x + c * (s * s)) / x))
      by (unfold w; field; lra).
    rewrite E. apply Rmult_lt_0_compat; [assumption|].
    apply Rdiv_lt_0_compat; lra.
  - destruct (Rlt_dec x 0) as [Hx'|Hx'].
    + set (w := c * s / x).
      pose proof (cos_atan_pos w) as Hp.
      assert (Hq : 0 < - ((x * x + c * (s * s)) / x)).
      { pose proof (Rinv_lt_0_compat x Hx'). unfold Rdiv. nra. }
      destruct (Rle_dec 0 (c * s)) as [Hy|Hy].
      * rewrite neg_cos, neg_sin, sin_atan_cos.
        assert (E : x * - cos (atan w) + s * - (w * cos (atan w)) =
                    cos (atan w) * - ((x * x + c * (s * s)) / x))
          by (unfold w; field; lra).
        rewrite E. now apply Rmult_lt_0_compat.
      * rewrite cos_minus, sin_minus, cos_PI, sin_PI, sin_atan_cos.
        assert (E : x * (cos (atan w) * -1 + w * cos (atan w) * 0) +
                    s * (w * cos (atan w) * -1 - cos (atan w) * 0) =
                    cos (atan w) * - ((x * x + c * (s * s)) / x))
          by (unfold w; field; lra).
        rewrite E. now apply Rmult_lt_0_compat.
    + assert (Hx0 : x = 0) by lra.
      assert (Hs1 : s * s = 1) by nra.
      destruct (Rlt_dec 0 (c * s)) as [Hy|Hy].
      * rewrite cos_PI2, sin_PI2. nra.
      * destruct (Rlt_dec (c * s) 0) as [Hy'|Hy'].
        -- rewrite cos_neg, sin_neg, cos_PI2, sin_PI2. nra.
        -- exfalso. assert (c * s = 0) by lra. nra.
Qed.

Lemma centre_bound (gamma : R) :
  Rabs (1.915 * sin gamma + 0.02 * sin (2 * gamma)) <= 1.935.
Proof.
  pose proof (SIN_bound gamma). pose proof (SIN_bound (2 * gamma)).
  apply Rabs_le. lra.
Qed.

Lemma sin_abs_le (x : R) : Rabs (sin x) <= Rabs x.
Proof.
  assert (Hpos : forall y, 0 <= y -> Rabs (sin y) <= y).
  { intros y [Hy| <-]; [|rewrite sin_0, Rabs_R0; lra].
    apply Rabs_le. pose proof (SIN_bound y).
    destruct (Rle_dec y 1) as [H1|H1].
    - pose proof (sin_lt_x y Hy). pose proof PI_gt_3.
      pose proof (sin_gt_0 y Hy ltac:(lra)). lra.
    - lra. }
  destruct (Rle_dec 0 x) as [Hx|Hx].
  - rewrite (Rabs_pos_eq x Hx). now apply Hpos.
  - rewrite <- (Rabs_Ropp x), <- (Rabs_Ropp (sin x)), <- sin_neg.
    rewrite (Rabs_pos_eq (- x)) by lra. apply Hpos. lra.
Qed.

Lemma norm_radians (x : R) :
  exists k : Z, SalahReal.norm x * PI / 180 = x * PI / 180 - 2 * IZR k * PI.
Proof.
  destruct (norm_multiple x) as [k E]. exists k. rewrite E. field.
Qed.

Lemma salah_raw_not_half_turn (jd : R) :
  0 < cos (SalahReal.eps jd) ->
  SalahReal.raw jd <> 12 /\ SalahReal.raw jd <> -12.
Proof.
  intros Hc.
  assert (Hcos : -1 < cos ((SalahReal.q jd - SalahReal.RA jd) * PI / 180)).
  { unfold SalahReal.RA, SalahReal.L.
    rewrite (Rplus_assoc (SalahReal.q jd)).
    set (t := 1.915 * sin (SalahReal.g jd * PI / 180) +
              0.02 * sin (2 * (SalahReal.g jd * PI / 180))).
    pose proof (centre_bound (SalahReal.g jd * PI / 180)) as Ht. fold t in Ht.
    destruct (norm_radians (SalahReal.q jd + t)) as [k1 E1].
    set (l := SalahReal.norm (SalahReal.q jd + t) * PI / 180) in *.
    pose proof (atan2_alignment _ l Hc) as Hal.
    set (A := Math.Ratan2 (cos (SalahReal.eps jd) * sin l) (cos l)) in *.
    destruct (norm_radians (A * 180 / PI)) as [k2 E2].
    assert (EA : A * 180 / PI * PI / 180 = A) by (field; apply PI_neq0).
    rewrite EA in E2.
    set (ra := SalahReal.norm (A * 180 / PI)) in *.
    set (tau := t * PI / 180).
    assert (Eth : (SalahReal.q jd - ra) * PI / 180 =
                  (l - A - tau) + 2 * IZR (k1 + k2) * PI).
    { rewrite plus_IZR. unfold tau. lra. }
    rewrite Eth, cos_period_Z, cos_minus.
    pose proof PI_RGT_0 as Hpi. pose proof PI_4 as Hpi4. pose proof PI_gt_3.
    apply Rabs_le_inv in Ht.
    assert (Htau : Rabs tau <= 0.043).
    { apply Rabs_le. unfold tau. split; nra. }
    pose proof (sin_abs_le tau) as Hst.
    assert (Hsin : -0.043 <= sin tau <= 0.043).
    { pose proof (Rle_trans _ _ _ Hst Htau) as Hs.
      apply Rabs_le_inv in Hs. lra. }
    assert (Hctau : 0 < cos tau).
    { apply Rabs_le_inv in Htau. apply cos_gt_0; lra. }
    pose proof (SIN_bound (l - A)) as Hsb.
    assert (0 < cos (l - A) * cos tau) by now apply Rmult_lt_0_compat.
    assert (-0.043 <= sin (l - A) * sin tau) by nra.
    lra. }
  unfold SalahReal.raw. split; intros E.
  - replace (SalahReal.q jd - SalahReal.RA jd) with 180 in Hcos by lra.
    replace (180 * PI / 180) with PI in Hcos by lra.
    rewrite cos_PI in Hcos. lra.
  - replace (SalahReal.q jd - SalahReal.RA jd) with (-180) in Hcos by lra.
    replace (-180 * PI / 180) with (- PI) in Hcos by lra.
    rewrite cos_neg, cos_PI in Hcos. lra.
Qed.

Lemma fold_strict (e : R) :
  -24 < e < 24 -> e <> 12 -> e <> -12 -> -12 < SalahReal.fold e < 12.
Proof.
  intros He H1 H2. unfold SalahReal.fold.
  destruct (Rlt_dec 12 e); destruct (Rlt_dec _ (-12)); lra.
Qed.

(** The dates a [Date] object can hold keep the obliquity well inside a
    quarter turn. *)
Lemma date_range_obliquity (jd : R) :
  representableDate jd -> 0 < cos (SalahReal.eps jd).
Proof.
  unfold representableDate, SalahReal.eps, SalahReal.Dr. intros Hjd.
  pose proof PI_RGT_0. apply cos_gt_0; nra.
Qed.

(** X4: on every Julian date a [Date] object can hold, the equation of time
    returned by [salahUtils.ts] lies strictly between -12 and 12 hours. *)
Lemma salah_equation_of_time_strict (jd : R) :
  representableDate jd ->
  exists e : R,
    equationOfTime (SalahUtils.calculateSolarParameters (Fin jd)) = Fin e /\
    -12 < e < 12.
Proof.
  intros Hjd. rewrite salah_solar_Fin. cbn [equationOfTime].
  eexists. split; [reflexivity|].
  destruct (salah_raw_not_half_turn jd (date_range_obliquity jd Hjd)).
  apply fold_strict; try assumption. apply salah_raw_range.
Qed.

(** * Relating the two calculators *)

Lemma fold_multiple (e : R) :
  exists j : Z, SalahReal.fold e = e + 24 * IZR j.
Proof.
  unfold SalahReal.fold.
  destruct (Rlt_dec 12 e); destruct (Rlt_dec _ (-12)).
  - exists 0%Z. lra.
  - exists (-1)%Z. lra.
  - exists 1%Z. lra.
  - exists 0%Z. lra.
Qed.

Lemma rem_radians (x : R) :
  exists k : Z, Rrem x 360 * PI / 180 = x * PI / 180 - 2 * IZR k * PI.
Proof.
  destruct (Rrem_multiple x 360) as [k E]. exists k. rewrite E. field.
Qed.

(** The two readings of an angle have the same sine and cosine. *)
Lemma rem_norm_trig (x : R) :
  sin (Rrem x 360 * PI / 180) = sin (SalahReal.norm x * PI / 180) /\
  cos (Rrem x 360 * PI / 180) = cos (SalahReal.norm x * PI / 180) /\
  sin (2 * (Rrem x 360 * PI / 180)) = sin (2 * (SalahReal.norm x * PI / 180)).
Proof.
  destruct (rem_radians x) as [a Ea]. destruct (norm_radians x) as [b Eb].
  assert (E : Rrem x 360 * PI / 180 =
              SalahReal.norm x * PI / 180 + 2 * IZR (b - a) * PI)
    by (rewrite minus_IZR; lra).
  assert (E2 : 2 * (Rrem x 360 * PI / 180) =
               2 * (SalahReal.norm x * PI / 180) +
               2 * IZR (2 * (b - a)) * PI)
    by (rewrite mult_IZR, minus_IZR; lra).
  rewrite E2, E, !sin_period_Z, cos_period_Z. auto.
Qed.

Lemma rem_is_norm (x : R) : 0 <= x -> Rrem x 360 = SalahReal.norm x.
Proof.
  intros Hx. destruct (Rrem_multiple x 360) as [k E].
  pose proof (Rrem_nonneg x 360 ltac:(lra) Hx) as Hb.
  rewrite (norm_eq x k); lra.
Qed.

(** From 23 March 1999 on (a non-negative mean-longitude expression), the
    equation of time of [part_000] is that of [salahUtils.ts] taken into
    [0, 24): the same value when it is non-negative, 24 hours more when it is
    negative. *)
Lemma naive_eot_is_wrapped (jd : R) :
  0 <= 280.459 + 0.98564736 * (jd - 2451545.0) ->
  (0 <= SalahReal.eot jd -> NaiveReal.eot jd = SalahReal.eot jd) /\
  (SalahReal.eot jd < 0 -> NaiveReal.eot jd = SalahReal.eot jd + 24).
Proof.
  intros Hq.
  assert (Eq : NaiveReal.q jd = SalahReal.q jd)
    by (unfold NaiveReal.q, SalahReal.q, NaiveReal.Dr, SalahReal.Dr;
        now apply rem_is_norm).
  assert (Hq0 : 0 <= SalahReal.q jd < 360) by apply norm_range.
  assert (EL : sin (NaiveReal.L jd * PI / 180) =
                 sin (SalahReal.L jd * PI / 180) /\
               cos (NaiveReal.L jd * PI / 180) =
                 cos (SalahReal.L jd * PI / 180)).
  { unfold NaiveReal.L, SalahReal.L. rewrite Eq.
    unfold NaiveReal.g, SalahReal.g.
    change (NaiveReal.Dr jd) with (SalahReal.Dr jd).
    destruct (rem_norm_trig (357.529 + 0.98560028 * SalahReal.Dr jd))
      as (Es & _ & Es2).
    rewrite Es, Es2.
    match goal with |- sin (Rrem ?x 360 * PI / 180) = _ /\ _ =>
      destruct (rem_norm_trig x) as (E1 & E2 & _) end.
    now rewrite E1, E2. }
  destruct EL as [ELs ELc].
  assert (ERA : exists m : Z,
             SalahReal.RA jd / 15 = NaiveReal.RA jd - 24 * IZR m).
  { unfold SalahReal.RA, NaiveReal.RA. rewrite ELs, ELc.
    change (NaiveReal.eps jd) with (SalahReal.eps jd).
    match goal with |- context [SalahReal.norm ?x] =>
      destruct (norm_multiple x) as [m Em]; exists m; rewrite Em end.
    lra. }
  destruct ERA as [m Em].
  pose proof (naive_RA_range jd) as Hra.
  pose proof (salah_eot_range jd) as Hes.
  unfold SalahReal.eot in *. unfold NaiveReal.eot.
  destruct (fold_multiple (SalahReal.raw jd)) as [j' Ej'].
  unfold SalahReal.raw in *. rewrite Eq, Em in *.
  set (x := SalahReal.q jd / 15 - NaiveReal.RA jd + 24).
  assert (Hx : 0 <= x) by (unfold x; lra).
  destruct (Rrem_multiple x 24) as [j Ej].
  pose proof (Rrem_nonneg x 24 ltac:(lra) Hx) as Hn.
  set (es := SalahReal.fold _) in *.
  assert (EN : Rrem x 24 - es = 24 * IZR (1 - j - m - j')).
  { rewrite Ej, Ej'. repeat (rewrite minus_IZR || rewrite plus_IZR).
    unfold x. lra. }
  set (N := (1 - j - m - j')%Z) in *.
  assert (HN1 : (-1 < N)%Z) by (apply lt_IZR; lra).
  assert (HN2 : (N < 2)%Z) by (apply lt_IZR; lra).
  split; intros Hs.
  - assert (N = 0%Z).
    { destruct (Z.eq_dec N 1) as [E1|E1]; [|lia]. rewrite E1 in EN. lra. }
    rewrite H in EN. lra.
  - assert (N = 1%Z).
    { destruct (Z.eq_dec N 0) as [E0|E0]; [|lia]. rewrite E0 in EN. lra. }
    rewrite H in EN. lra.
Qed.

(** * High latitudes at midsummer *)

(** Both files return the same declination on 29 June 2000. *)
Lemma midyear_solar_declination :
  declination (SalahUtils.calculateSolarParameters (Fin jdMidYear)) =
    Fin (SalahReal.decl jdMidYear) /\
  declination (Part000.calculateSolarParameters (Fin jdMidYear)) =
    Fin (SalahReal.decl jdMidYear).
Proof.
  rewrite salah_solar_Fin, part_solar_Fin. cbn [declination].
  now rewrite midyear_naive_decl.
Qed.

(** At latitude 80 the twilight angle is out of reach whenever the
    declination is positive. *)
Lemma summer_at_80_undefined (dl : R) :
  0 < dl < PI / 2 ->
  ~ acosDomain (hourAngleArg (Fin 80) (Fin dl) (- Fin 15)%js).
Proof.
  intros Hd. cbn [neg]. pose proof PI_RGT_0 as Hpi.
  set (phi := 80 * PI / 180).
  assert (Hphi : 0 < phi < PI / 2) by (unfold phi; lra).
  assert (Hcl : 0 < cos phi) by (apply cos_gt_0; lra).
  assert (Hcd : 0 < cos dl) by (apply cos_gt_0; lra).
  assert (Hp : 0 < cos phi * cos dl) by now apply Rmult_lt_0_compat.
  pose proof (cos_plus phi dl) as Hplus.
  assert (Hdec : cos (phi + dl) < cos phi)
    by (apply cos_decreasing_1; lra).
  assert (Hshift : cos phi = sin (PI / 18)).
  { rewrite <- sin_shift. f_equal. unfold phi. lra. }
  assert (Hinc : sin (PI / 18) < sin (PI / 12))
    by (apply sin_increasing_1; lra).
  assert (Hneg : sin (- (15) * PI / 180) = - sin (PI / 12)).
  { rewrite <- sin_neg. f_equal. lra. }
  apply (below_domain _ ((sin (- (15) * PI / 180) - sin phi * sin dl) /
                           (cos phi * cos dl))).
  - apply hourAngleArg_Fin. fold phi. lra.
  - set (p := cos phi * cos dl) in *.
    pose proof (Rinv_0_lt_compat p Hp) as Hi.
    assert (Hone : p * / p = 1) by (field; lra).
    assert (Hnum : sin (- (15) * PI / 180) - sin phi * sin dl < - p) by lra.
    unfold Rdiv. nra.
Qed.

Lemma midyear_at_80_undefined :
  ~ acosDomain
      (hourAngleArg (Fin 80) (Fin (SalahReal.decl jdMidYear)) (- Fin 15)%js).
Proof. apply summer_at_80_undefined. apply midyear_decl. Qed.

(** * The remainder lines under rounding *)

Lemma eta_small : 0 < Rounded.eta <= / 2 ^ 100.
Proof. unfold Rounded.eta. lra. Qed.

Lemma rounded_error (rnd : R -> R) (x b : R) :
  Rounded.standardModel rnd -> Rabs x <= b -> b <= 100 ->
  - (Rounded.u * b + Rounded.eta) <= rnd x - x <= Rounded.u * b + Rounded.eta.
Proof.
  intros H Hb Hc. specialize (H x ltac:(lra)). apply Rabs_le_inv in H.
  assert (Hu : 0 <= Rounded.u) by (unfold Rounded.u; lra).
  pose proof (Rmult_le_compat_l _ _ _ Hu Hb). lra.
Qed.

(** Exact arithmetic is the rounding without error. *)
Lemma standardModel_exact : Rounded.standardModel (fun x : R => x).
Proof.
  intros x _. rewrite Rminus_diag, Rabs_R0. pose proof eta_small.
  assert (0 <= Rounded.u * Rabs x);
    [apply Rmult_le_pos; [unfold Rounded.u; lra|apply Rabs_pos]|lra].
Qed.

(** The two lines of a pair share the noon and the offset: what separates
    the two differences, whole days apart, is the rounding of four
    additions, less than 2^-45 hours. *)
Lemma rounded_symmetry (rnd : R -> R) (noon offset : R) :
  Rounded.standardModel rnd ->
  -24 < noon < 24 -> 0 <= offset <= 13 ->
  exists k : Z,
    Rabs (noon - Rounded.before rnd noon offset -
          (Rounded.after rnd noon offset - noon) - 24 * IZR k) <= / 2 ^ 45.
Proof.
  intros Hr Hn Ho. unfold Rounded.before, Rounded.after.
  pose proof eta_small as He.
  set (a1 := rnd (noon - offset)). set (a2 := rnd (noon + offset)).
  assert (H1 : - (Rounded.u * 37 + Rounded.eta) <= a1 - (noon - offset)
               <= Rounded.u * 37 + Rounded.eta).
  { apply rounded_error; [exact Hr| |lra]. apply Rabs_le. lra. }
  assert (H2 : - (Rounded.u * 37 + Rounded.eta) <= a2 - (noon + offset)
               <= Rounded.u * 37 + Rounded.eta).
  { apply rounded_error; [exact Hr| |lra]. apply Rabs_le. lra. }
  assert (H3 : - (Rounded.u * 62 + Rounded.eta) <= rnd (a1 + 24) - (a1 + 24)
               <= Rounded.u * 62 + Rounded.eta).
  { apply rounded_error; [exact Hr| |lra]. apply Rabs_le.
    unfold Rounded.u in *. lra. }
  assert (H4 : - (Rounded.u * 62 + Rounded.eta) <= rnd (a2 + 24) - (a2 + 24)
               <= Rounded.u * 62 + Rounded.eta).
  { apply rounded_error; [exact Hr| |lra]. apply Rabs_le.
    unfold Rounded.u in *. lra. }
  destruct (Rrem_multiple (rnd (a1 + 24)) 24) as [k1 E1].
  destruct (Rrem_multiple (rnd (a2 + 24)) 24) as [k2 E2].
  exists (k1 + k2 - 2)%Z. rewrite E1, E2, minus_IZR, plus_IZR.
  apply Rabs_le. unfold Rounded.u in *. lra.
Qed.




Lemma congruent24_near24 (a b : number) : congruent24 a b -> near24 a b.
Proof.
  intros (x & y & k & -> & -> & E). exists x, y, k. repeat split.
  replace (x - y - 24 * IZR k) with 0 by lra.
  rewrite Rabs_R0. unfold tolerance. lra.
Qed.

Lemma add_NaN_r (a : number) : (a + NaN)%js = NaN.
Proof. now destruct a. Qed.

Lemma sub_NaN_r (a : number) : (a - NaN)%js = NaN.
Proof. now destruct a. Qed.

Section AssemblerRounding.

Variable JSDate : Type.
Variable newDate : string -> JSDate.
Variable getJulianDate : JSDate -> number.
Variable solar : number -> SolarParameters.


(** With not-a-number for longitude the noon is not-a-number. *)
Lemma nan_longitude_generic (lat : number) (date : string) :
  exists t,
    calculatePrayerTimes JSDate newDate getJulianDate solar lat NaN date =
      Returns t /\
    Dhuhr t = NaN.
Proof.
  eexists. split; [reflexivity|]. cbn [Dhuhr].
  change (NaN / 15)%js with NaN. now rewrite sub_NaN_r.
Qed.

End AssemblerRounding.

(** * The claims *)

(** ** Hour angle *)

(** C1, as stated: whenever the argument of the arc cosine is outside
    [-1, 1], [calculateHourAngle] answers with something other than a silent
    not-a-number.  At latitude 70 with a declination of 20 degrees the
    twilight angle of -15 degrees is never reached, and the function returns
    not-a-number. *)
Lemma silent_nan_counterexample :
  ~ (forall lat decl angle : number,
       ~ acosDomain (hourAngleArg lat decl angle) ->
       calculateHourAngle lat decl angle <> NaN).
Proof.
  intros H.
  apply (H (Fin 70) (Fin (PI / 9)) (Fin (- (15))) polar_day_70).
  apply hour_angle_undefined, polar_day_70.
Qed.

(** C1, amended: whenever the argument of the arc cosine is not a number of
    [-1, 1], [calculateHourAngle] returns not-a-number, and so does every
    time [calculatePrayerTimes] derives from that hour angle: with the Fajr
    angle, both Fajr and Isha, in either file. *)
Theorem undefined_hour_angle_is_nan
    (JSDate : Type) (newDate : string -> JSDate)
    (getJulianDate : JSDate -> number)
    (lat decl angle lon : number) (date : string) :
  ~ acosDomain (hourAngleArg lat decl angle) ->
  calculateHourAngle lat decl angle = NaN /\
  (angle = (- Fin 15)%js ->
   decl =
     declination
       (SalahUtils.calculateSolarParameters (getJulianDate (newDate date))) ->
   exists t,
     SalahUtils.calculatePrayerTimes newDate getJulianDate lat lon date =
       Returns t /\
     Fajr t = NaN /\ Isha t = NaN) /\
  (angle = (- Fin 15)%js ->
   decl =
     declination
       (Part000.calculateSolarParameters (getJulianDate (newDate date))) ->
   exists t,
     Part000.calculatePrayerTimes newDate getJulianDate lat lon date =
       Returns t /\
     Fajr t = NaN /\ Isha t = NaN).
Proof.
  intros H. split; [now apply hour_angle_undefined|].
  split; intros -> ->; now apply undefined_fajr_generic.
Qed.

Lemma undefined_hour_angle_is_nan_witness :
  calculateHourAngle (Fin 80) (Fin (SalahReal.decl jdMidYear)) (- Fin 15)%js =
    NaN /\
  (exists t,
     SalahUtils.calculatePrayerTimes (fun s : string => s)
       (fun _ => Fin jdMidYear) (Fin 80) (Fin 0) "2000-06-29" = Returns t /\
     Fajr t = NaN /\ Isha t = NaN) /\
  (exists t,
     Part000.calculatePrayerTimes (fun s : string => s)
       (fun _ => Fin jdMidYear) (Fin 80) (Fin 0) "2000-06-29" = Returns t /\
     Fajr t = NaN /\ Isha t = NaN).
Proof.
  destruct (undefined_hour_angle_is_nan string (fun s => s)
              (fun _ => Fin jdMidYear) (Fin 80)
              (Fin (SalahReal.decl jdMidYear)) (- Fin 15)%js (Fin 0)
              "2000-06-29" midyear_at_80_undefined) as (H1 & H2 & H3).
  split; [exact H1|]. split.
  - apply H2; [reflexivity|]. symmetry. apply midyear_solar_declination.
  - apply H3; [reflexivity|]. symmetry. apply midyear_solar_declination.
Defined.

(** C9, as stated: the hour angle is a number of [0, PI] on every input.
    At latitude 60 with a declination of 30 degrees the sun never sets and
    the sunrise angle yields not-a-number. *)
Lemma hour_angle_range_counterexample :
  ~ (exists h : R,
       calculateHourAngle (Fin 60) (Fin (PI / 6)) (Fin (- (0.833))) = Fin h /\
       0 <= h <= PI).
Proof.
  intros (h & E & _).
  rewrite (hour_angle_undefined _ _ _ polar_day_60) in E. discriminate.
Qed.

(** C9, amended: whenever the argument of the arc cosine is a number of
    [-1, 1], the hour angle returned by [calculateHourAngle] is a number of
    [0, PI]; on every other input it is not-a-number. *)
Theorem hour_angle_range (lat decl angle : number) :
  (acosDomain (hourAngleArg lat decl angle) ->
   exists h : R, calculateHourAngle lat decl angle = Fin h /\ 0 <= h <= PI) /\
  (~ acosDomain (hourAngleArg lat decl angle) ->
   calculateHourAngle lat decl angle = NaN).
Proof.
  split; [apply hour_angle_defined|apply hour_angle_undefined].
Qed.

Lemma hour_angle_range_witness :
  (exists h : R,
     calculateHourAngle (Fin 0) (Fin 0) (Fin (- (15))) = Fin h /\
     0 <= h <= PI) /\
  calculateHourAngle (Fin 70) (Fin (PI / 9)) (Fin (- (15))) = NaN.
Proof.
  split.
  - exact (proj1 (hour_angle_range _ _ _) equinox_equator_domain).
  - exact (proj2 (hour_angle_range _ _ _) polar_day_70).
Defined.

(** ** The assembler *)

(** C10: the Dhuhr value does not depend on the latitude, in either file. *)
Theorem dhuhr_independent_of_latitude
    (JSDate : Type) (newDate : string -> JSDate)
    (getJulianDate : JSDate -> number)
    (lat1 lat2 lon : number) (date : string) :
  (exists t1 t2,
     SalahUtils.calculatePrayerTimes newDate getJulianDate lat1 lon date =
       Returns t1 /\
     SalahUtils.calculatePrayerTimes newDate getJulianDate lat2 lon date =
       Returns t2 /\
     Dhuhr t1 = Dhuhr t2) /\
  (exists t1 t2,
     Part000.calculatePrayerTimes newDate getJulianDate lat1 lon date =
       Returns t1 /\
     Part000.calculatePrayerTimes newDate getJulianDate lat2 lon date =
       Returns t2 /\
     Dhuhr t1 = Dhuhr t2).
Proof. split; apply dhuhr_generic. Qed.




(** C7, as stated: a malformed date string or coordinates out of range make
    [calculatePrayerTimes] throw.  With the date 2000-06-29 and the
    coordinates (1000, 1000) the call returns. *)
Lemma no_rejection_counterexample :
  ~ (forall (JSDate : Type) (newDate : string -> JSDate)
            (getJulianDate : JSDate -> number)
            (lat lon : number) (date : string),
       wellFormedDate date = false \/ ~ validCoordinates lat lon ->
       SalahUtils.calculatePrayerTimes newDate getJulianDate lat lon date =
         Throws).
Proof.
  intros H.
  assert (Hc : ~ validCoordinates (Fin 1000) (Fin 1000)).
  { intros (x & y & Ex & Ey & Hx & Hy). injection Ex as <-. lra. }
  specialize (H string (fun s => s) (fun _ => Fin jdMidYear)
                (Fin 1000) (Fin 1000) "2000-06-29"%string (or_intror Hc)).
  discriminate H.
Qed.

(** C7, amended: the coordinates are not checked.  For every latitude and
    every finite longitude, within the documented ranges or not, and a date
    whose Julian date is a finite number, [calculatePrayerTimes] carries the
    computation out and returns a Dhuhr that is a finite number strictly
    between -24 and 24; and whatever the coordinates, when [getJulianDate]
    yields not-a-number the seven values returned are not-a-number.  In
    either file. *)
Theorem coordinates_are_not_checked
    (JSDate : Type) (newDate : string -> JSDate)
    (getJulianDate : JSDate -> number)
    (lat lon : number) (jd : R) (date : string) :
  (getJulianDate (newDate date) = Fin jd -> finite lon ->
   (exists (t : PrayerTimes) (d : R),
      SalahUtils.calculatePrayerTimes newDate getJulianDate lat lon date =
        Returns t /\
      Dhuhr t = Fin d /\ -24 < d < 24) /\
   (exists (t : PrayerTimes) (d : R),
      Part000.calculatePrayerTimes newDate getJulianDate lat lon date =
        Returns t /\
      Dhuhr t = Fin d /\ -24 < d < 24)) /\
  (getJulianDate (newDate date) = NaN ->
   SalahUtils.calculatePrayerTimes newDate getJulianDate lat lon date =
     Returns allNaN /\
   Part000.calculatePrayerTimes newDate getJulianDate lat lon date =
     Returns allNaN).
Proof.
  split.
  - intros Hj [y ->]. split.
    + destruct (dhuhr_value JSDate newDate getJulianDate
                  SalahUtils.calculateSolarParameters lat y
                  (SalahReal.decl jd) (SalahReal.eot jd) date)
        as (t & E & Ed).
      { rewrite Hj. apply salah_solar_Fin. }
      exists t, (TimesReal.noon (SalahReal.eot jd) y).
      split; [exact E|]. split; [exact Ed|].
      apply Rrem_bound. lra.
    + destruct (dhuhr_value JSDate newDate getJulianDate
                  Part000.calculateSolarParameters lat y
                  (NaiveReal.decl jd) (NaiveReal.eot jd) date)
        as (t & E & Ed).
      { rewrite Hj. apply part_solar_Fin. }
      exists t, (TimesReal.noon (NaiveReal.eot jd) y).
      split; [exact E|]. split; [exact Ed|].
      apply Rrem_bound. lra.
  - intros Hj. split.
    + unfold SalahUtils.calculatePrayerTimes.
      now rewrite (nan_date_generic _ _ _ _ lat lon date eq_refl Hj).
    + unfold Part000.calculatePrayerTimes.
      now rewrite (nan_date_generic _ _ _ _ lat lon date eq_refl Hj).
Qed.

Lemma coordinates_are_not_checked_witness :
  ~ validCoordinates (Fin 1000) (Fin 1000) /\
  (exists (t : PrayerTimes) (d : R),
     SalahUtils.calculatePrayerTimes (fun s : string => s)
       (fun _ => Fin jdMidYear) (Fin 1000) (Fin 1000) "2000-06-29" =
       Returns t /\
     Dhuhr t = Fin d /\ -24 < d < 24) /\
  SalahUtils.calculatePrayerTimes (fun s : string => s) (fun _ => NaN)
    (Fin 1000) (Fin 1000) "2000-06-29" = Returns allNaN.
Proof.
  split; [|split].
  - intros (x & y & Ex & Ey & Hx & Hy). injection Ex as <-. lra.
  - apply (proj1 (coordinates_are_not_checked string (fun s => s)
                    (fun _ => Fin jdMidYear) (Fin 1000) (Fin 1000)
                    jdMidYear "2000-06-29"));
      [reflexivity|now exists 1000].
  - apply (proj2 (coordinates_are_not_checked string (fun s => s)
                    (fun _ => NaN) (Fin 1000) (Fin 1000)
                    jdMidYear "2000-06-29")).
    reflexivity.
Defined.

(** C6, as stated: whenever the hour angles are defined, Dhuhr - Shuruq and
    Sunset - Dhuhr are equal modulo 24.  On doubles, with a noon of
    9.403447668836092 and 6.75 hours between sunrise and noon, the two lines
    return 2.653447668836094 and 16.153447668836094: the two differences are
    2^-48 hours apart (4096 units of 2^-60), which is no whole number of
    days.  And on the equator on 29 June 2000, where the hour angles are
    defined, not-a-number for longitude makes Dhuhr not-a-number and the two
    differences with it. *)
Lemma symmetry_counterexample :
  (exists d s1 s2 : Z,
     Binary64.units Binary64.noonExample = Some d /\
     Binary64.units
       (Binary64.before Binary64.noonExample Binary64.offsetExample) =
       Some s1 /\
     Binary64.units
       (Binary64.after Binary64.noonExample Binary64.offsetExample) =
       Some s2 /\
     (d - s1 - (s2 - d) = - 2 ^ 12)%Z /\
     ~ exists k : Z, (d - s1 - (s2 - d) = 24 * 2 ^ 60 * k)%Z) /\
  (acosDomain
     (hourAngleArg (Fin 0)
        (declination (SalahUtils.calculateSolarParameters (Fin jdMidYear)))
        (- Fin 15)%js) /\
   acosDomain
     (hourAngleArg (Fin 0)
        (declination (SalahUtils.calculateSolarParameters (Fin jdMidYear)))
        (Fin (-0.833))) /\
   exists t,
     SalahUtils.calculatePrayerTimes (fun s : string => s)
       (fun _ => Fin jdMidYear) (Fin 0) NaN "2000-06-29" = Returns t /\
     ~ congruent24 (Dhuhr t - Shuruq t)%js (Sunset t - Dhuhr t)%js).
Proof.
  split.
  - exists 10841437034846255104%Z, 3059216878750040064%Z,
      18623657190942474240%Z.
    repeat split; try (vm_compute; reflexivity).
    intros [k Hk].
    assert (E : (2 ^ 60 = 1152921504606846976)%Z) by reflexivity.
    rewrite E in Hk. lia.
  - rewrite (proj1 midyear_solar_declination).
    destruct midyear_equator_domains as (HF & HS & _).
    repeat (split; [assumption|]).
    destruct (nan_longitude_generic string (fun s => s)
                (fun _ => Fin jdMidYear) SalahUtils.calculateSolarParameters
                (Fin 0) "2000-06-29") as (t & E & Ed).
    exists t. split; [exact E|]. rewrite Ed.
    intros (x & y & k & Ex & _). discriminate Ex.
Qed.

(** C6, amended: for a finite latitude, a finite longitude and a date with a
    finite Julian date, whenever the Fajr and sunrise hour angles are
    defined, Dhuhr - Shuruq and Sunset - Dhuhr, and Dhuhr - Fajr and
    Isha - Dhuhr, agree modulo 24 to within a billionth of an hour, in
    either file.  On the two lines of a pair themselves: from the same noon
    and the same offset, the two differences are within 2^-45 hours of each
    other modulo 24 under every rounding of the standard model. *)
Theorem symmetric_around_dhuhr
    (JSDate : Type) (newDate : string -> JSDate)
    (getJulianDate : JSDate -> number)
    (lat lon jd : R) (date : string) (rnd : R -> R) (noon offset : R) :
  (getJulianDate (newDate date) = Fin jd ->
   (acosDomain
      (hourAngleArg (Fin lat)
         (declination (SalahUtils.calculateSolarParameters (Fin jd)))
         (- Fin 15)%js) ->
    acosDomain
      (hourAngleArg (Fin lat)
         (declination (SalahUtils.calculateSolarParameters (Fin jd)))
         (Fin (-0.833))) ->
    exists t,
      SalahUtils.calculatePrayerTimes newDate getJulianDate
        (Fin lat) (Fin lon) date = Returns t /\
      near24 (Dhuhr t - Shuruq t)%js (Sunset t - Dhuhr t)%js /\
      near24 (Dhuhr t - Fajr t)%js (Isha t - Dhuhr t)%js) /\
   (acosDomain
      (hourAngleArg (Fin lat)
         (declination (Part000.calculateSolarParameters (Fin jd)))
         (- Fin 15)%js) ->
    acosDomain
      (hourAngleArg (Fin lat)
         (declination (Part000.calculateSolarParameters (Fin jd)))
         (Fin (-0.833))) ->
    exists t,
      Part000.calculatePrayerTimes newDate getJulianDate
        (Fin lat) (Fin lon) date = Returns t /\
      near24 (Dhuhr t - Shuruq t)%js (Sunset t - Dhuhr t)%js /\
      near24 (Dhuhr t - Fajr t)%js (Isha t - Dhuhr t)%js)) /\
  (Rounded.standardModel rnd ->
   -24 < noon < 24 -> 0 <= offset <= 13 ->
   exists k : Z,
     Rabs (noon - Rounded.before rnd noon offset -
           (Rounded.after rnd noon offset - noon) - 24 * IZR k)
       <= / 2 ^ 45).
Proof.
  split; [|apply rounded_symmetry].
  intros Hj. split.
  - rewrite salah_solar_Fin. cbn [declination]. intros HF HS.
    destruct (symmetry_generic JSDate newDate getJulianDate
                SalahUtils.calculateSolarParameters lat lon
                (SalahReal.decl jd) (SalahReal.eot jd) date)
      as (t & E & H1 & H2); try assumption.
    { rewrite Hj. apply salah_solar_Fin. }
    exists t. split; [exact E|]. split; now apply congruent24_near24.
  - rewrite part_solar_Fin. cbn [declination]. intros HF HS.
    destruct (symmetry_generic JSDate newDate getJulianDate
                Part000.calculateSolarParameters lat lon
                (NaiveReal.decl jd) (NaiveReal.eot jd) date)
      as (t & E & H1 & H2); try assumption.
    { rewrite Hj. apply part_solar_Fin. }
    exists t. split; [exact E|]. split; now apply congruent24_near24.
Qed.

Lemma symmetric_around_dhuhr_witness :
  (exists t,
     SalahUtils.calculatePrayerTimes (fun s : string => s)
       (fun _ => Fin jdMidYear) (Fin 0) (Fin 0) "2000-06-29" = Returns t /\
     near24 (Dhuhr t - Shuruq t)%js (Sunset t - Dhuhr t)%js /\
     near24 (Dhuhr t - Fajr t)%js (Isha t - Dhuhr t)%js) /\
  exists k : Z,
    Rabs (12 - Rounded.before (fun x : R => x) 12 6 -
          (Rounded.after (fun x : R => x) 12 6 - 12) - 24 * IZR k)
      <= / 2 ^ 45.
Proof.
  destruct (symmetric_around_dhuhr string (fun s => s)
              (fun _ => Fin jdMidYear) 0 0 jdMidYear "2000-06-29"
              (fun x : R => x) 12 6) as [HA HB].
  split.
  - apply (proj1 (HA eq_refl));
      rewrite (proj1 midyear_solar_declination);
      apply midyear_equator_domains.
  - apply HB; [exact standardModel_exact|lra|lra].
Defined.

(** Beyond the documented range the single remainder of the noon line does
    not bring every longitude back into the day: on the equator on 29 June
    2000 all hour angles are defined and a longitude of 720 degrees yields a
    negative Dhuhr. *)
Lemma unchecked_longitude_negative_dhuhr :
  acosDomain
    (hourAngleArg (Fin 0)
       (declination (SalahUtils.calculateSolarParameters (Fin jdMidYear)))
       (- Fin 15)%js) /\
  acosDomain
    (hourAngleArg (Fin 0)
       (declination (SalahUtils.calculateSolarParameters (Fin jdMidYear)))
       (Fin (-0.833))) /\
  acosDomain
    (asrArg (Fin 0)
       (declination (SalahUtils.calculateSolarParameters (Fin jdMidYear)))) /\
  exists t,
    SalahUtils.calculatePrayerTimes (fun s : string => s)
      (fun _ => Fin jdMidYear) (Fin 0) (Fin 720) "2000-06-29" = Returns t /\
    exists x : R, Dhuhr t = Fin x /\ x < 0.
Proof.
  rewrite (proj1 midyear_solar_declination).
  destruct midyear_equator_domains as (HF & HS & HA).
  repeat (split; [assumption|]).
  destruct (hour_angle_defined _ _ _ HF) as (hF & EF & _).
  destruct (hour_angle_defined _ _ _ HS) as (hS & ES & _).
  unfold SalahUtils.calculatePrayerTimes.
  rewrite (assemble_times _ (fun s : string => s) (fun _ => Fin jdMidYear)
             SalahUtils.calculateSolarParameters 0 720 "2000-06-29"
             _ _ _ _ (salah_solar_Fin jdMidYear) EF ES).
  eexists. split; [reflexivity|]. cbv zeta. cbn [Dhuhr].
  eexists. split; [reflexivity|].
  unfold TimesReal.noon. rewrite midyear_eot. pose proof midyear_raw.
  rewrite Rrem_small_neg; lra.
Qed.

(** C4: for coordinates of the documented ranges and a date with a finite
    Julian date, whenever the three hour angles are defined, each of the
    seven values returned by [calculatePrayerTimes] is a number of [0, 24),
    in either file. *)
Theorem times_within_day
    (JSDate : Type) (newDate : string -> JSDate)
    (getJulianDate : JSDate -> number)
    (lat lon : number) (jd : R) (date : string) :
  validCoordinates lat lon ->
  getJulianDate (newDate date) = Fin jd ->
  (acosDomain
     (hourAngleArg lat
        (declination (SalahUtils.calculateSolarParameters (Fin jd)))
        (- Fin 15)%js) ->
   acosDomain
     (hourAngleArg lat
        (declination (SalahUtils.calculateSolarParameters (Fin jd)))
        (Fin (-0.833))) ->
   acosDomain
     (asrArg lat
        (declination (SalahUtils.calculateSolarParameters (Fin jd)))) ->
   exists t,
     SalahUtils.calculatePrayerTimes newDate getJulianDate lat lon date =
       Returns t /\
     allInDay t) /\
  (acosDomain
     (hourAngleArg lat
        (declination (Part000.calculateSolarParameters (Fin jd)))
        (- Fin 15)%js) ->
   acosDomain
     (hourAngleArg lat
        (declination (Part000.calculateSolarParameters (Fin jd)))
        (Fin (-0.833))) ->
   acosDomain
     (asrArg lat
        (declination (Part000.calculateSolarParameters (Fin jd)))) ->
   exists t,
     Part000.calculatePrayerTimes newDate getJulianDate lat lon date =
       Returns t /\
     allInDay t).
Proof.
  intros (x & y & -> & -> & Hx & Hy) Hj. split.
  - rewrite salah_solar_Fin. cbn [declination]. intros HF HS HA.
    apply range_generic with (dl := SalahReal.decl jd) (e := SalahReal.eot jd);
      try assumption.
    + rewrite Hj. apply salah_solar_Fin.
    + pose proof (salah_eot_range jd). lra.
    + lra.
  - rewrite part_solar_Fin. cbn [declination]. intros HF HS HA.
    apply range_generic with (dl := NaiveReal.decl jd) (e := NaiveReal.eot jd);
      try assumption.
    + rewrite Hj. apply part_solar_Fin.
    + apply naive_eot_range.
    + lra.
Qed.

Lemma times_within_day_witness :
  (exists t,
     SalahUtils.calculatePrayerTimes (fun s : string => s)
       (fun _ => Fin jdMidYear) (Fin 0) (Fin 0) "2000-06-29" = Returns t /\
     allInDay t) /\
  (exists t,
     Part000.calculatePrayerTimes (fun s : string => s)
       (fun _ => Fin jdMidYear) (Fin 0) (Fin 0) "2000-06-29" = Returns t /\
     allInDay t).
Proof.
  assert (Hv : validCoordinates (Fin 0) (Fin 0)).
  { exists 0, 0. repeat split; lra. }
  destruct (times_within_day string (fun s => s) (fun _ => Fin jdMidYear)
              (Fin 0) (Fin 0) jdMidYear "2000-06-29" Hv eq_refl) as [HS HP].
  split.
  - apply HS; rewrite (proj1 midyear_solar_declination);
      apply midyear_equator_domains.
  - apply HP; rewrite (proj2 midyear_solar_declination);
      apply midyear_equator_domains.
Defined.

(** ** The solar calculators *)

(** X3: in [salahUtils.ts] the four angles are normalised into [0, 360) and
    the equation of time is folded to within twelve hours of zero, on every
    finite Julian date. *)
Lemma salah_angles_normalized (jd : R) :
  (exists g, SalahUtils.gDeg (Fin jd) = Fin g /\ 0 <= g < 360) /\
  (exists q, SalahUtils.qDeg (Fin jd) = Fin q /\ 0 <= q < 360) /\
  (exists l, SalahUtils.LDeg (Fin jd) = Fin l /\ 0 <= l < 360) /\
  (exists ra, SalahUtils.RAdeg (Fin jd) = Fin ra /\ 0 <= ra < 360) /\
  (exists e,
     equationOfTime (SalahUtils.calculateSolarParameters (Fin jd)) = Fin e /\
     -12 <= e <= 12).
Proof.
  rewrite salah_gDeg_Fin, salah_qDeg_Fin, salah_LDeg_Fin, salah_RAdeg_Fin,
    salah_solar_Fin.
  repeat split; eexists; (split; [reflexivity|]);
    try apply norm_range. apply salah_eot_range.
Qed.

(** C2, on [part_000]: on 29 June 2000 the equation of time returned by the
    calculator of [part_000] lies between 18.5 and 24 hours, outside
    (-12, 12). *)
Theorem naive_equation_of_time_wraps :
  exists e : R,
    equationOfTime (Part000.calculateSolarParameters (Fin jdMidYear)) =
      Fin e /\
    18.5 < e < 24.
Proof.
  rewrite part_solar_Fin. cbn [equationOfTime].
  eexists. split; [reflexivity|].
  rewrite midyear_naive_eot, midyear_eot. pose proof midyear_raw. lra.
Qed.

(** C3, on 29 June 2000, far from a year boundary: the calculator of
    [salahUtils.ts] returns a negative equation of time and the calculator
    of [part_000] returns that value plus 24 hours. *)
Theorem naive_and_normalized_differ :
  exists e : R,
    equationOfTime (SalahUtils.calculateSolarParameters (Fin jdMidYear)) =
      Fin e /\
    equationOfTime (Part000.calculateSolarParameters (Fin jdMidYear)) =
      Fin (e + 24) /\
    -5.5 < e < 0.
Proof.
  rewrite salah_solar_Fin, part_solar_Fin. cbn [equationOfTime].
  eexists. split; [reflexivity|]. split.
  - now rewrite midyear_naive_eot.
  - rewrite midyear_eot. apply midyear_raw.
Qed.

(** C5, on [part_000]: on 27 November 1998 the mean longitude and the mean
    anomaly of [part_000] are negative, not normalised into [0, 360). *)
Theorem naive_angles_not_normalized :
  Part000.q (Fin jdBeforeEpoch) = Fin (-113.799944) /\
  Part000.g (Fin jdBeforeEpoch) = Fin (-36.711112 * PI / 180).
Proof.
  rewrite part_q_Fin, part_g_Fin.
  unfold NaiveReal.q, NaiveReal.g, NaiveReal.Dr, jdBeforeEpoch.
  rewrite !Rrem_small_neg by lra. split; f_equal; lra.
Qed.

(** * Further properties of the code *)

(** ** [normalizeAngle] *)

(** X1: [normalizeAngle] returns an angle of [0, 360) on every finite
    number, the negative ones included, and not-a-number on an infinity or
    on not-a-number. *)
Theorem normalizeAngle_range (a : number) :
  (finite a ->
   exists y : R, SalahUtils.normalizeAngle a = Fin y /\ 0 <= y < 360) /\
  (~ finite a -> SalahUtils.normalizeAngle a = NaN).
Proof.
  split.
  - intros [x ->]. exists (SalahReal.norm x).
    split; [apply normalizeAngle_Fin|apply norm_range].
  - intros H. destruct a as [r| | |]; try reflexivity.
    exfalso. apply H. now exists r.
Qed.

Lemma normalizeAngle_range_witness :
  (exists y : R,
     SalahUtils.normalizeAngle (Fin (-30)) = Fin y /\ 0 <= y < 360) /\
  SalahUtils.normalizeAngle PInf = NaN.
Proof.
  split.
  - apply (proj1 (normalizeAngle_range (Fin (-30)))). now exists (-30).
  - apply (proj2 (normalizeAngle_range PInf)). intros [r E]. discriminate E.
Defined.

(** ** The solar calculators *)







Lemma midyear_representable : representableDate jdMidYear.
Proof. unfold representableDate, jdMidYear. lra. Qed.


Lemma mul_pos_PInf (c : R) : 0 < c -> mul (Fin c) PInf = PInf.
Proof. intros H. cbn. destruct (Rlt_dec 0 c); [reflexivity|contradiction]. Qed.

Lemma mul_pos_NInf (c : R) : 0 < c -> mul (Fin c) NInf = NInf.
Proof. intros H. cbn. destruct (Rlt_dec 0 c); [reflexivity|contradiction]. Qed.

Lemma toRadians_infinite :
  Math.sin (toRadians PInf) = NaN /\ Math.sin (toRadians NInf) = NaN.
Proof.
  unfold toRadians, Math.PI. cbn [mul].
  destruct (Rlt_dec 0 PI) as [_|H]; [|pose proof PI_RGT_0; lra].
  cbn [div]. destruct (Rlt_dec 180 0); [lra|]. split; reflexivity.
Qed.

Lemma salah_solar_not_finite (a : number) :
  ~ finite a ->
  SalahUtils.calculateSolarParameters a =
    {| declination := NaN; equationOfTime := NaN |}.
Proof.
  intros H. destruct toRadians_infinite as [Hp Hn].
  destruct a as [r| | |].
  - exfalso. apply H. now exists r.
  - unfold SalahUtils.calculateSolarParameters, SalahUtils.RAhrs,
      SalahUtils.RAdeg, SalahUtils.LDeg, SalahUtils.qDeg, SalahUtils.gDeg,
      SalahUtils.epsilon, SalahUtils.D.
    cbn [sub add neg]. rewrite !mul_pos_PInf by lra.
    cbn [sub add neg]. rewrite Hn. reflexivity.
  - unfold SalahUtils.calculateSolarParameters, SalahUtils.RAhrs,
      SalahUtils.RAdeg, SalahUtils.LDeg, SalahUtils.qDeg, SalahUtils.gDeg,
      SalahUtils.epsilon, SalahUtils.D.
    cbn [sub add neg]. rewrite !mul_pos_NInf by lra.
    cbn [sub add neg]. rewrite Hp. reflexivity.
  - reflexivity.
Qed.

Lemma part_solar_not_finite (a : number) :
  ~ finite a ->
  Part000.calculateSolarParameters a =
    {| declination := NaN; equationOfTime := NaN |}.
Proof.
  intros H. destruct toRadians_infinite as [Hp Hn].
  destruct a as [r| | |].
  - exfalso. apply H. now exists r.
  - unfold Part000.calculateSolarParameters, Part000.RA, Part000.L,
      Part000.q, Part000.g, Part000.epsilon, Part000.D.
    cbn [sub add neg]. rewrite !mul_pos_PInf by lra.
    cbn [sub add neg]. rewrite Hn. reflexivity.
  - unfold Part000.calculateSolarParameters, Part000.RA, Part000.L,
      Part000.q, Part000.g, Part000.epsilon, Part000.D.
    cbn [sub add neg]. rewrite !mul_pos_NInf by lra.
    cbn [sub add neg]. rewrite Hp. reflexivity.
  - reflexivity.
Qed.

(** X6: either solar calculator returns two finite numbers on a finite
    Julian date (the argument of the arc sine never leaves [-1, 1]) and
    not-a-number twice on an infinite or not-a-number Julian date. *)
Theorem solar_parameters_finite_iff (a : number) :
  (finite a ->
   finite (declination (SalahUtils.calculateSolarParameters a)) /\
   finite (equationOfTime (SalahUtils.calculateSolarParameters a)) /\
   finite (declination (Part000.calculateSolarParameters a)) /\
   finite (equationOfTime (Part000.calculateSolarParameters a))) /\
  (~ finite a ->
   SalahUtils.calculateSolarParameters a =
     {| declination := NaN; equationOfTime := NaN |} /\
   Part000.calculateSolarParameters a =
     {| declination := NaN; equationOfTime := NaN |}).
Proof.
  split.
  - intros [jd ->]. rewrite salah_solar_Fin, part_solar_Fin.
    cbn [declination equationOfTime]. repeat split; eexists; reflexivity.
  - intros H. split;
      [now apply salah_solar_not_finite|now apply part_solar_not_finite].
Qed.

Lemma infinity_not_finite : ~ finite PInf.
Proof. intros [r E]. discriminate E. Qed.

Lemma solar_parameters_finite_iff_witness :
  finite
    (equationOfTime (SalahUtils.calculateSolarParameters (Fin jdMidYear))) /\
  SalahUtils.calculateSolarParameters PInf =
    {| declination := NaN; equationOfTime := NaN |}.
Proof.
  split.
  - apply (proj1 (solar_parameters_finite_iff (Fin jdMidYear))).
    now exists jdMidYear.
  - apply (proj2 (solar_parameters_finite_iff PInf)).
    exact infinity_not_finite.
Defined.

Lemma salah_equation_of_time_strict_witness :
  exists e : R,
    equationOfTime (SalahUtils.calculateSolarParameters (Fin jdMidYear)) =
      Fin e /\
    -12 < e < 12.
Proof.
  exact (salah_equation_of_time_strict jdMidYear midyear_representable).
Defined.

(** ** The two files side by side *)

Lemma norm_turns_trig (x : R) (m : Z) :
  sin (SalahReal.norm (x + 360 * IZR m) * PI / 180) =
    sin (SalahReal.norm x * PI / 180) /\
  cos (SalahReal.norm (x + 360 * IZR m) * PI / 180) =
    cos (SalahReal.norm x * PI / 180).
Proof.
  destruct (norm_radians (x + 360 * IZR m)) as [k1 E1].
  destruct (norm_radians x) as [k2 E2].
  assert (E : SalahReal.norm (x + 360 * IZR m) * PI / 180 =
              SalahReal.norm x * PI / 180 + 2 * IZR (m - k1 + k2) * PI)
    by (rewrite plus_IZR, minus_IZR; lra).
  rewrite E, sin_period_Z, cos_period_Z. auto.
Qed.

(** The ecliptic longitudes of the two files have the same sine and
    cosine. *)
Lemma naive_salah_L_trig (jd : R) :
  sin (NaiveReal.L jd * PI / 180) = sin (SalahReal.L jd * PI / 180) /\
  cos (NaiveReal.L jd * PI / 180) = cos (SalahReal.L jd * PI / 180).
Proof.
  unfold NaiveReal.L, SalahReal.L, NaiveReal.g, SalahReal.g,
    NaiveReal.q, SalahReal.q.
  change (NaiveReal.Dr jd) with (SalahReal.Dr jd).
  destruct (rem_norm_trig (357.529 + 0.98560028 * SalahReal.Dr jd))
    as (Es & _ & Es2).
  rewrite Es, Es2.
  set (xq := 280.459 + 0.98564736 * SalahReal.Dr jd).
  rewrite !(Rplus_assoc (Rrem xq 360)), !(Rplus_assoc (SalahReal.norm xq)).
  set (t := 1.915 * _ + 0.02 * _).
  destruct (Rrem_multiple xq 360) as [a Ea].
  destruct (norm_multiple xq) as [b Eb].
  assert (E : Rrem xq 360 + t = SalahReal.norm xq + t + 360 * IZR (b - a))
    by (rewrite Ea, Eb, minus_IZR; lra).
  destruct (rem_norm_trig (Rrem xq 360 + t)) as (E1 & E2 & _).
  rewrite E1, E2, E. apply norm_turns_trig.
Qed.

Lemma naive_salah_decl (jd : R) : NaiveReal.decl jd = SalahReal.decl jd.
Proof.
  unfold NaiveReal.decl, SalahReal.decl.
  now rewrite (proj1 (naive_salah_L_trig jd)).
Qed.

(** X9: on every Julian date a [Date] object can hold the two files return
    declinations within a billionth of a radian of each other, the missing
    normalisation of [part_000] moving the angles by whole turns only; on an
    infinity or on not-a-number both return not-a-number. *)
Theorem declinations_agree (a : number) :
  (forall jd : R, a = Fin jd -> representableDate jd ->
   exists ds dn : R,
     declination (SalahUtils.calculateSolarParameters a) = Fin ds /\
     declination (Part000.calculateSolarParameters a) = Fin dn /\
     Rabs (dn - ds) <= tolerance) /\
  (~ finite a ->
   declination (SalahUtils.calculateSolarParameters a) = NaN /\
   declination (Part000.calculateSolarParameters a) = NaN).
Proof.
  split.
  - intros jd -> _. rewrite part_solar_Fin, salah_solar_Fin.
    cbn [declination]. do 2 eexists. do 2 (split; [reflexivity|]).
    rewrite naive_salah_decl, Rminus_diag, Rabs_R0. unfold tolerance. lra.
  - intros H. now rewrite part_solar_not_finite, salah_solar_not_finite.
Qed.

Lemma declinations_agree_witness :
  exists ds dn : R,
    declination (SalahUtils.calculateSolarParameters (Fin jdMidYear)) =
      Fin ds /\
    declination (Part000.calculateSolarParameters (Fin jdMidYear)) =
      Fin dn /\
    Rabs (dn - ds) <= tolerance.
Proof.
  exact (proj1 (declinations_agree (Fin jdMidYear)) jdMidYear eq_refl
           midyear_representable).
Defined.

(** X7: the equation of time returned by [part_000] on a finite Julian date
    lies in (-12, 24), and in [0, 24) from 23 March 1999 on. *)
Theorem naive_equation_of_time_range (jd : R) :
  exists e : R,
    equationOfTime (Part000.calculateSolarParameters (Fin jd)) = Fin e /\
    -12 < e < 24 /\
    (2451261 <= jd -> 0 <= e).
Proof.
  rewrite part_solar_Fin. cbn [equationOfTime].
  eexists. split; [reflexivity|]. split; [apply naive_eot_range|].
  intros Hjd. unfold NaiveReal.eot.
  pose proof (naive_RA_range jd) as Hra.
  assert (Hq : 0 <= NaiveReal.q jd).
  { unfold NaiveReal.q, NaiveReal.Dr. apply Rrem_nonneg; lra. }
  apply Rrem_nonneg; lra.
Qed.

Lemma naive_equation_of_time_range_witness :
  exists e : R,
    equationOfTime (Part000.calculateSolarParameters (Fin jdMidYear)) =
      Fin e /\
    0 <= e < 24.
Proof.
  destruct (naive_equation_of_time_range jdMidYear) as (e & E & Hr & Hp).
  exists e. split; [exact E|]. split; [|lra].
  apply Hp. unfold jdMidYear. lra.
Defined.

(** X8: on the Julian dates a [Date] object can hold, from 23 March 1999 on,
    the equation of time of [part_000] is that of [salahUtils.ts] taken into
    [0, 24), up to rounding: within a billionth of an hour of it or of 24
    hours more, the former when the latter is positive by at least that
    tolerance, the latter when it is negative by at least that tolerance. *)
Theorem naive_equation_of_time_is_wrapped (jd : R) :
  representableDate jd -> 2451261 <= jd ->
  exists es en : R,
    equationOfTime (SalahUtils.calculateSolarParameters (Fin jd)) = Fin es /\
    equationOfTime (Part000.calculateSolarParameters (Fin jd)) = Fin en /\
    (Rabs (en - es) <= tolerance \/ Rabs (en - es - 24) <= tolerance) /\
    (tolerance <= es -> Rabs (en - es) <= tolerance) /\
    (es <= - tolerance -> Rabs (en - es - 24) <= tolerance).
Proof.
  intros _ Hjd. rewrite salah_solar_Fin, part_solar_Fin.
  cbn [equationOfTime]. do 2 eexists. do 2 (split; [reflexivity|]).
  destruct (naive_eot_is_wrapped jd ltac:(lra)) as [Hp Hn].
  assert (Ht : 0 < tolerance) by (unfold tolerance; lra).
  assert (H0 : Rabs 0 <= tolerance) by (rewrite Rabs_R0; lra).
  split; [|split].
  - destruct (Rle_dec 0 (SalahReal.eot jd)) as [H|H].
    + left. rewrite (Hp H), Rminus_diag. exact H0.
    + right. rewrite (Hn ltac:(lra)).
      replace (SalahReal.eot jd + 24 - SalahReal.eot jd - 24) with 0 by lra.
      exact H0.
  - intros H. rewrite (Hp ltac:(lra)), Rminus_diag. exact H0.
  - intros H. rewrite (Hn ltac:(lra)).
    replace (SalahReal.eot jd + 24 - SalahReal.eot jd - 24) with 0 by lra.
    exact H0.
Qed.

Lemma naive_equation_of_time_is_wrapped_witness :
  exists es en : R,
    equationOfTime (SalahUtils.calculateSolarParameters (Fin jdMidYear)) =
      Fin es /\
    equationOfTime (Part000.calculateSolarParameters (Fin jdMidYear)) =
      Fin en /\
    (Rabs (en - es) <= tolerance \/ Rabs (en - es - 24) <= tolerance) /\
    (tolerance <= es -> Rabs (en - es) <= tolerance) /\
    (es <= - tolerance -> Rabs (en - es - 24) <= tolerance).
Proof.
  apply naive_equation_of_time_is_wrapped;
    [exact midyear_representable|unfold jdMidYear; lra].
Defined.

Lemma Rrem_shift24 (x : R) : 0 <= x -> Rrem (x + 24) 24 = Rrem x 24.
Proof.
  intros Hx. destruct (Rrem_multiple x 24) as [k E].
  pose proof (Rrem_nonneg x 24 ltac:(lra) Hx) as Hb.
  rewrite (Rrem_eq (x + 24) 24 (k + 1)); rewrite ?plus_IZR; lra.
Qed.

Lemma noon_agrees (jd lon : R) :
  2451261 <= jd -> lon <= 180 ->
  TimesReal.noon (NaiveReal.eot jd) lon = TimesReal.noon (SalahReal.eot jd) lon.
Proof.
  intros Hjd Hlon. unfold TimesReal.noon.
  destruct (naive_eot_is_wrapped jd ltac:(lra)) as [Hp Hn].
  pose proof (salah_eot_range jd) as Hr.
  destruct (Rle_dec 0 (SalahReal.eot jd)) as [H|H].
  - now rewrite (Hp H).
  - rewrite (Hn ltac:(lra)).
    rewrite <- (Rrem_shift24 (12 - (SalahReal.eot jd + 24) - lon / 15 + 24))
      by lra.
    f_equal. lra.
Qed.

(** X10: on the Julian dates a [Date] object can hold, from 23 March 1999
    on, and for a longitude of the documented range, the two files return
    the same Dhuhr to within a billionth of an hour, for every latitude: the
    day the equation of time of [part_000] is off by disappears in the
    remainder that computes the noon.  Both are times of [0, 24), equal to
    within the tolerance when they are not at the two ends of the day. *)
Theorem files_agree_on_dhuhr
    (JSDate : Type) (newDate : string -> JSDate)
    (getJulianDate : JSDate -> number)
    (lat : number) (lon jd : R) (date : string) :
  getJulianDate (newDate date) = Fin jd ->
  representableDate jd -> 2451261 <= jd -> -180 <= lon <= 180 ->
  exists (tp ts : PrayerTimes) (dp ds : R),
    Part000.calculatePrayerTimes newDate getJulianDate lat (Fin lon) date =
      Returns tp /\
    SalahUtils.calculatePrayerTimes newDate getJulianDate lat (Fin lon) date =
      Returns ts /\
    Dhuhr tp = Fin dp /\ Dhuhr ts = Fin ds /\
    0 <= dp < 24 /\ 0 <= ds < 24 /\
    (Rabs (dp - ds) <= tolerance \/ 24 - tolerance <= Rabs (dp - ds)).
Proof.
  intros Hj _ Hjd Hlon.
  destruct (dhuhr_value JSDate newDate getJulianDate
              Part000.calculateSolarParameters lat lon
              (NaiveReal.decl jd) (NaiveReal.eot jd) date) as (tp & Ep & Dp).
  { rewrite Hj. apply part_solar_Fin. }
  destruct (dhuhr_value JSDate newDate getJulianDate
              SalahUtils.calculateSolarParameters lat lon
              (SalahReal.decl jd) (SalahReal.eot jd) date) as (ts & Es & Ds).
  { rewrite Hj. apply salah_solar_Fin. }
  exists tp, ts, (TimesReal.noon (NaiveReal.eot jd) lon),
    (TimesReal.noon (SalahReal.eot jd) lon).
  do 4 (split; [assumption|]).
  rewrite (noon_agrees jd lon Hjd ltac:(lra)).
  pose proof (salah_eot_range jd) as Hr.
  assert (Hn : 0 <= TimesReal.noon (SalahReal.eot jd) lon < 24).
  { unfold TimesReal.noon. apply Rrem_nonneg; lra. }
  do 2 (split; [exact Hn|]).
  left. rewrite Rminus_diag, Rabs_R0. unfold tolerance. lra.
Qed.

Lemma files_agree_on_dhuhr_witness :
  exists (tp ts : PrayerTimes) (dp ds : R),
    Part000.calculatePrayerTimes (fun s : string => s)
      (fun _ => Fin jdMidYear) (Fin 21.4225) (Fin 39.8262) "2000-06-29" =
      Returns tp /\
    SalahUtils.calculatePrayerTimes (fun s : string => s)
      (fun _ => Fin jdMidYear) (Fin 21.4225) (Fin 39.8262) "2000-06-29" =
      Returns ts /\
    Dhuhr tp = Fin dp /\ Dhuhr ts = Fin ds /\
    0 <= dp < 24 /\ 0 <= ds < 24 /\
    (Rabs (dp - ds) <= tolerance \/ 24 - tolerance <= Rabs (dp - ds)).
Proof.
  apply (files_agree_on_dhuhr string (fun s => s) (fun _ => Fin jdMidYear)
           (Fin 21.4225) 39.8262 jdMidYear "2000-06-29" eq_refl
           midyear_representable);
    unfold jdMidYear; lra.
Defined.

(** ** The hour angle *)

Lemma finite_or_not (a : number) : finite a \/ ~ finite a.
Proof.
  destruct a as [r| | |]; [left; now exists r|right..];
    intros [r E]; discriminate E.
Qed.

Lemma toRadians_not_finite (a : number) :
  ~ finite a ->
  Math.sin (toRadians a) = NaN /\ Math.cos (toRadians a) = NaN.
Proof.
  intros H. destruct a as [r| | |].
  - exfalso. apply H. now exists r.
  - unfold toRadians, Math.PI. cbn [mul].
    destruct (Rlt_dec 0 PI) as [_|Hn]; [|pose proof PI_RGT_0; lra].
    cbn [div]. destruct (Rlt_dec 180 0); [lra|]. split; reflexivity.
  - unfold toRadians, Math.PI. cbn [mul].
    destruct (Rlt_dec 0 PI) as [_|Hn]; [|pose proof PI_RGT_0; lra].
    cbn [div]. destruct (Rlt_dec 180 0); [lra|]. split; reflexivity.
  - split; reflexivity.
Qed.

Lemma neg_not_finite (a : number) : ~ finite a -> ~ finite (- a)%js.
Proof.
  intros H [r E]. apply H. destruct a as [x| | |]; try discriminate E.
  now exists x.
Qed.

Lemma hourAngleArg_nan_latitude (lat decl angle : number) :
  Math.sin (toRadians lat) = NaN -> Math.cos (toRadians lat) = NaN ->
  hourAngleArg lat decl angle = NaN.
Proof.
  intros Hs Hc. unfold hourAngleArg. cbv zeta. rewrite Hs, Hc.
  cbn [mul]. destruct (Math.sin (toRadians angle)); reflexivity.
Qed.

Lemma hourAngleArg_nan_declination (lat decl angle : number) :
  ~ finite decl -> hourAngleArg lat decl angle = NaN.
Proof.
  intros H. unfold hourAngleArg. cbv zeta.
  assert (Hs : Math.sin decl = NaN /\ Math.cos decl = NaN).
  { destruct decl as [r| | |]; try (split; reflexivity).
    exfalso. apply H. now exists r. }
  destruct Hs as [-> ->].
  destruct (Math.sin (toRadians lat)), (Math.cos (toRadians lat)),
    (Math.sin (toRadians angle)); reflexivity.
Qed.

(** X11: the hour angle is the same in both hemispheres: changing the signs
    of the latitude and of the declination together leaves the result of
    [calculateHourAngle] unchanged, on every input. *)
Theorem hour_angle_hemisphere_symmetry (lat decl angle : number) :
  calculateHourAngle (- lat)%js (- decl)%js angle =
  calculateHourAngle lat decl angle.
Proof.
  rewrite !calculateHourAngle_arg. f_equal.
  destruct (finite_or_not lat) as [[x ->]|Hl].
  - destruct (finite_or_not decl) as [[y ->]|Hd].
    + unfold hourAngleArg. cbv zeta. cbn [neg]. rewrite !toRadians_Fin.
      cbn [Math.sin Math.cos mul].
      replace (- x * PI / 180) with (- (x * PI / 180)) by lra.
      rewrite !sin_neg, !cos_neg.
      replace (- sin (x * PI / 180) * - sin y)
        with (sin (x * PI / 180) * sin y) by lra.
      reflexivity.
    + rewrite !hourAngleArg_nan_declination;
        [reflexivity|assumption|now apply neg_not_finite].
  - destruct (toRadians_not_finite _ Hl) as [Hs Hc].
    destruct (toRadians_not_finite _ (neg_not_finite _ Hl)) as [Hs' Hc'].
    now rewrite !hourAngleArg_nan_latitude.
Qed.

Lemma acos_le (x y : R) : -1 <= x -> x <= y -> y <= 1 -> acos y <= acos x.
Proof.
  intros Hx Hxy Hy. destruct (Rle_dec (acos y) (acos x)) as [H|H]; [exact H|].
  exfalso. pose proof (acos_bound x). pose proof (acos_bound y).
  assert (Hc : cos (acos y) < cos (acos x))
    by (apply cos_decreasing_1; lra).
  rewrite !cos_acos in Hc by lra. lra.
Qed.


Lemma sin_degrees_le (a1 a2 : R) :
  -90 <= a1 -> a1 <= a2 -> a2 <= 90 ->
  sin (a1 * PI / 180) <= sin (a2 * PI / 180).
Proof.
  intros H1 H12 H2. pose proof PI_RGT_0.
  destruct H12 as [Hlt|Heq]; [|rewrite Heq; lra].
  left. apply sin_increasing_1; nra.
Qed.

(** Quotients by a positive denominator keep the order. *)
Lemma quotient_le (p a b : R) : 0 < p -> a <= b -> a / p <= b / p.
Proof.
  intros Hp Hab. pose proof (Rinv_0_lt_compat p Hp). unfold Rdiv. nra.
Qed.

(** X12: away from the poles, the hour angle decreases as the target
    elevation rises: whenever both hour angles are defined, the one for the
    higher elevation is not larger. *)
Theorem hour_angle_decreases_with_elevation (lat dl a1 a2 : R) :
  -90 < lat < 90 -> - (PI / 2) < dl < PI / 2 ->
  -90 <= a1 -> a1 <= a2 -> a2 <= 90 ->
  acosDomain (hourAngleArg (Fin lat) (Fin dl) (Fin a1)) ->
  acosDomain (hourAngleArg (Fin lat) (Fin dl) (Fin a2)) ->
  exists h1 h2 : R,
    calculateHourAngle (Fin lat) (Fin dl) (Fin a1) = Fin h1 /\
    calculateHourAngle (Fin lat) (Fin dl) (Fin a2) = Fin h2 /\
    0 <= h2 <= h1 /\ h1 <= PI.
Proof.
  intros Hlat Hdl H1 H12 H2 D1 D2. pose proof PI_RGT_0 as Hpi.
  assert (Hcl : 0 < cos (lat * PI / 180)) by (apply cos_gt_0; nra).
  assert (Hcd : 0 < cos dl) by (apply cos_gt_0; lra).
  assert (Hp : 0 < cos (lat * PI / 180) * cos dl)
    by now apply Rmult_lt_0_compat.
  rewrite !calculateHourAngle_arg.
  rewrite !hourAngleArg_Fin in * by lra.
  destruct D1 as (x1 & E1 & B1). injection E1 as <-.
  destruct D2 as (x2 & E2 & B2). injection E2 as <-.
  rewrite !acos_Fin by assumption.
  do 2 eexists. do 2 (split; [reflexivity|]).
  pose proof (sin_degrees_le a1 a2 H1 H12 H2) as Hs.
  set (K := sin (lat * PI / 180) * sin dl) in *.
  set (p := cos (lat * PI / 180) * cos dl) in *.
  assert (Hq : (sin (a1 * PI / 180) - K) / p <= (sin (a2 * PI / 180) - K) / p)
    by (apply quotient_le; lra).
  pose proof (acos_bound ((sin (a1 * PI / 180) - K) / p)).
  pose proof (acos_bound ((sin (a2 * PI / 180) - K) / p)).
  pose proof (acos_le _ _ (proj1 B1) Hq (proj2 B2)). lra.
Qed.

Lemma hour_angle_decreases_with_elevation_witness :
  exists h1 h2 : R,
    calculateHourAngle (Fin 0) (Fin 0) (Fin (- (15))) = Fin h1 /\
    calculateHourAngle (Fin 0) (Fin 0) (Fin (- (0.833))) = Fin h2 /\
    0 <= h2 <= h1 /\ h1 <= PI.
Proof.
  pose proof PI_RGT_0.
  apply hour_angle_decreases_with_elevation; try lra.
  - apply equator_twilight_domain; rewrite ?cos_0; lra.
  - apply equator_twilight_domain; rewrite ?cos_0; lra.
Defined.

(** ** The assembler *)

Section AssemblerFurther.

Variable JSDate : Type.
Variable newDate : string -> JSDate.
Variable getJulianDate : JSDate -> number.
Variable solar : number -> SolarParameters.

Lemma undefined_sunrise_generic (lat lon : number) (date : string) :
  ~ acosDomain
      (hourAngleArg lat
         (declination (solar (getJulianDate (newDate date))))
         (Fin (-0.833))) ->
  exists t,
    calculatePrayerTimes JSDate newDate getJulianDate solar lat lon date =
      Returns t /\
    Shuruq t = NaN /\ Sunset t = NaN /\ Maghrib t = NaN.
Proof.
  intros H. apply hour_angle_undefined in H.
  eexists. split; [reflexivity|]. cbn [Shuruq Sunset Maghrib].
  rewrite H. destruct (time_of_nan
    ((12 - equationOfTime (solar (getJulianDate (newDate date))) -
        lon / 15 + 24) mod 24)%js) as [E1 E2].
  rewrite E1, E2. repeat split.
Qed.

Lemma undefined_asr_generic (lat lon : number) (date : string) :
  ~ acosDomain
      (asrArg lat (declination (solar (getJulianDate (newDate date))))) ->
  exists t,
    calculatePrayerTimes JSDate newDate getJulianDate solar lat lon date =
      Returns t /\
    Asr t = NaN.
Proof.
  intros H. apply acos_outside_domain in H.
  eexists. split; [reflexivity|]. cbn [Asr].
  change (Math.acos _)
    with (Math.acos
            (asrArg lat
               (declination (solar (getJulianDate (newDate date)))))).
  rewrite H. apply (proj2 (time_of_nan _)).
Qed.

End AssemblerFurther.

(** X15: on a finite Julian date and for a finite longitude of at most 180
    degrees, Dhuhr is a time of [0, 24), whatever the latitude, be it
    not-a-number; for a longitude of the documented range it is 12 minus the
    equation of time minus the longitude in hours, up to whole days and to
    within a billionth of an hour.  In either file. *)
Theorem dhuhr_always_defined
    (JSDate : Type) (newDate : string -> JSDate)
    (getJulianDate : JSDate -> number)
    (lat : number) (lon jd : R) (date : string) :
  getJulianDate (newDate date) = Fin jd ->
  lon <= 180 ->
  (exists (t : PrayerTimes) (d e : R),
     SalahUtils.calculatePrayerTimes newDate getJulianDate
       lat (Fin lon) date = Returns t /\
     Dhuhr t = Fin d /\ 0 <= d < 24 /\
     equationOfTime (SalahUtils.calculateSolarParameters (Fin jd)) = Fin e /\
     (-180 <= lon ->
      exists k : Z,
        Rabs (d - (12 - e - lon / 15) - 24 * IZR k) <= tolerance)) /\
  (exists (t : PrayerTimes) (d e : R),
     Part000.calculatePrayerTimes newDate getJulianDate
       lat (Fin lon) date = Returns t /\
     Dhuhr t = Fin d /\ 0 <= d < 24 /\
     equationOfTime (Part000.calculateSolarParameters (Fin jd)) = Fin e /\
     (-180 <= lon ->
      exists k : Z,
        Rabs (d - (12 - e - lon / 15) - 24 * IZR k) <= tolerance)).
Proof.
  intros Hj Hlon.
  assert (H0 : Rabs 0 <= tolerance)
    by (rewrite Rabs_R0; unfold tolerance; lra).
  split.
  - destruct (dhuhr_value JSDate newDate getJulianDate
                SalahUtils.calculateSolarParameters lat lon
                (SalahReal.decl jd) (SalahReal.eot jd) date) as (t & E & Ed).
    { rewrite Hj. apply salah_solar_Fin. }
    pose proof (salah_eot_range jd) as Hr.
    destruct (Rrem_multiple (12 - SalahReal.eot jd - lon / 15 + 24) 24)
      as [k Ek].
    exists t, (TimesReal.noon (SalahReal.eot jd) lon), (SalahReal.eot jd).
    split; [exact E|]. split; [exact Ed|]. unfold TimesReal.noon. split.
    + apply Rrem_nonneg; lra.
    + rewrite salah_solar_Fin. split; [reflexivity|].
      intros _. exists (1 - k)%Z. rewrite Ek, minus_IZR.
      match goal with |- Rabs ?x <= _ => replace x with 0 by lra end.
      exact H0.
  - destruct (dhuhr_value JSDate newDate getJulianDate
                Part000.calculateSolarParameters lat lon
                (NaiveReal.decl jd) (NaiveReal.eot jd) date) as (t & E & Ed).
    { rewrite Hj. apply part_solar_Fin. }
    pose proof (naive_eot_range jd) as Hr.
    destruct (Rrem_multiple (12 - NaiveReal.eot jd - lon / 15 + 24) 24)
      as [k Ek].
    exists t, (TimesReal.noon (NaiveReal.eot jd) lon), (NaiveReal.eot jd).
    split; [exact E|]. split; [exact Ed|]. unfold TimesReal.noon. split.
    + apply Rrem_nonneg; lra.
    + rewrite part_solar_Fin. split; [reflexivity|].
      intros _. exists (1 - k)%Z. rewrite Ek, minus_IZR.
      match goal with |- Rabs ?x <= _ => replace x with 0 by lra end.
      exact H0.
Qed.

Lemma dhuhr_always_defined_witness :
  exists (t : PrayerTimes) (d e : R),
    SalahUtils.calculatePrayerTimes (fun s : string => s)
      (fun _ => Fin jdMidYear) NaN (Fin 39.8262) "2000-06-29" = Returns t /\
    Dhuhr t = Fin d /\ 0 <= d < 24 /\
    equationOfTime (SalahUtils.calculateSolarParameters (Fin jdMidYear)) =
      Fin e /\
    (-180 <= 39.8262 ->
     exists k : Z,
       Rabs (d - (12 - e - 39.8262 / 15) - 24 * IZR k) <= tolerance).
Proof.
  assert (H : 39.8262 <= 180) by lra.
  exact (proj1 (dhuhr_always_defined string (fun s => s)
                  (fun _ => Fin jdMidYear) NaN 39.8262 jdMidYear
                  "2000-06-29" eq_refl H)).
Defined.

(** X14: moving 15 degrees east makes Dhuhr one hour earlier, up to whole
    days: on a finite Julian date and within the documented range of
    longitudes, the Dhuhr values returned for the longitudes [lon] and
    [lon + 15] differ by 1 modulo 24 to within a billionth of an hour, in
    either file. *)
Theorem dhuhr_moves_with_longitude
    (JSDate : Type) (newDate : string -> JSDate)
    (getJulianDate : JSDate -> number)
    (lat : number) (lon jd : R) (date : string) :
  getJulianDate (newDate date) = Fin jd ->
  -180 <= lon -> lon + 15 <= 180 ->
  (exists (t1 t2 : PrayerTimes) (d1 d2 : R) (k : Z),
     SalahUtils.calculatePrayerTimes newDate getJulianDate
       lat (Fin lon) date = Returns t1 /\
     SalahUtils.calculatePrayerTimes newDate getJulianDate
       lat (Fin (lon + 15)) date = Returns t2 /\
     Dhuhr t1 = Fin d1 /\ Dhuhr t2 = Fin d2 /\
     Rabs (d1 - d2 - 1 - 24 * IZR k) <= tolerance) /\
  (exists (t1 t2 : PrayerTimes) (d1 d2 : R) (k : Z),
     Part000.calculatePrayerTimes newDate getJulianDate
       lat (Fin lon) date = Returns t1 /\
     Part000.calculatePrayerTimes newDate getJulianDate
       lat (Fin (lon + 15)) date = Returns t2 /\
     Dhuhr t1 = Fin d1 /\ Dhuhr t2 = Fin d2 /\
     Rabs (d1 - d2 - 1 - 24 * IZR k) <= tolerance).
Proof.
  intros Hj _ _.
  assert (H0 : Rabs 0 <= tolerance)
    by (rewrite Rabs_R0; unfold tolerance; lra).
  split.
  - destruct (dhuhr_value JSDate newDate getJulianDate
                SalahUtils.calculateSolarParameters lat lon
                (SalahReal.decl jd) (SalahReal.eot jd) date) as (t1 & E1 & D1).
    { rewrite Hj. apply salah_solar_Fin. }
    destruct (dhuhr_value JSDate newDate getJulianDate
                SalahUtils.calculateSolarParameters lat (lon + 15)
                (SalahReal.decl jd) (SalahReal.eot jd) date) as (t2 & E2 & D2).
    { rewrite Hj. apply salah_solar_Fin. }
    unfold TimesReal.noon in *.
    destruct (Rrem_multiple (12 - SalahReal.eot jd - lon / 15 + 24) 24)
      as [k1 K1].
    destruct (Rrem_multiple (12 - SalahReal.eot jd - (lon + 15) / 15 + 24) 24)
      as [k2 K2].
    exists t1, t2. do 2 eexists. exists (k2 - k1)%Z.
    repeat (split; [eassumption|]). rewrite K1, K2, minus_IZR.
    match goal with |- Rabs ?x <= _ => replace x with 0 by lra end.
    exact H0.
  - destruct (dhuhr_value JSDate newDate getJulianDate
                Part000.calculateSolarParameters lat lon
                (NaiveReal.decl jd) (NaiveReal.eot jd) date) as (t1 & E1 & D1).
    { rewrite Hj. apply part_solar_Fin. }
    destruct (dhuhr_value JSDate newDate getJulianDate
                Part000.calculateSolarParameters lat (lon + 15)
                (NaiveReal.decl jd) (NaiveReal.eot jd) date) as (t2 & E2 & D2).
    { rewrite Hj. apply part_solar_Fin. }
    unfold TimesReal.noon in *.
    destruct (Rrem_multiple (12 - NaiveReal.eot jd - lon / 15 + 24) 24)
      as [k1 K1].
    destruct (Rrem_multiple (12 - NaiveReal.eot jd - (lon + 15) / 15 + 24) 24)
      as [k2 K2].
    exists t1, t2. do 2 eexists. exists (k2 - k1)%Z.
    repeat (split; [eassumption|]). rewrite K1, K2, minus_IZR.
    match goal with |- Rabs ?x <= _ => replace x with 0 by lra end.
    exact H0.
Qed.

Lemma dhuhr_moves_with_longitude_witness :
  exists (t1 t2 : PrayerTimes) (d1 d2 : R) (k : Z),
    SalahUtils.calculatePrayerTimes (fun s : string => s)
      (fun _ => Fin jdMidYear) (Fin 0) (Fin 30) "2000-06-29" = Returns t1 /\
    SalahUtils.calculatePrayerTimes (fun s : string => s)
      (fun _ => Fin jdMidYear) (Fin 0) (Fin (30 + 15)) "2000-06-29" =
      Returns t2 /\
    Dhuhr t1 = Fin d1 /\ Dhuhr t2 = Fin d2 /\
    Rabs (d1 - d2 - 1 - 24 * IZR k) <= tolerance.
Proof.
  assert (H1 : -180 <= 30) by lra.
  assert (H2 : 30 + 15 <= 180) by lra.
  exact (proj1 (dhuhr_moves_with_longitude string (fun s => s)
                  (fun _ => Fin jdMidYear) (Fin 0) 30 jdMidYear
                  "2000-06-29" eq_refl H1 H2)).
Defined.

(** ** Every value is a time of day or not-a-number *)

Lemma acos_cases (n : number) :
  Math.acos n = NaN \/ exists h : R, Math.acos n = Fin h /\ 0 <= h <= PI.
Proof.
  destruct n as [x| | |]; try (left; reflexivity).
  unfold Math.acos.
  destruct (Rle_dec (-1) x); [|left; reflexivity].
  destruct (Rle_dec x 1); [|left; reflexivity].
  right. exists (acos x). split; [reflexivity|apply acos_bound].
Qed.

Lemma times_of_angle (noon : R) (a : number) :
  0 <= noon < 24 ->
  a = NaN \/ (exists h : R, a = Fin h /\ 0 <= h <= PI) ->
  inDayOrNaN ((Fin noon - toDegrees a / 15 + 24) mod 24)%js /\
  inDayOrNaN ((Fin noon + toDegrees a / 15 + 24) mod 24)%js.
Proof.
  intros Hn [->|(h & -> & Hh)].
  - destruct (time_of_nan (Fin noon)) as [E1 E2]. rewrite E1, E2.
    split; now left.
  - apply hours_of_angle in Hh. rewrite toDegrees_Fin, div_15.
    cbn [sub add neg]. rewrite !rem_24.
    split; right; eexists; (split; [reflexivity|]); apply Rrem_nonneg; lra.
Qed.

Lemma maghrib_of_sunset (s : number) :
  inDayOrNaN s -> inDayOrNaN ((s + 3 / 60 + 24) mod 24)%js.
Proof.
  intros [->|(x & -> & Hx)]; [now left|].
  right. rewrite (div_Fin 3 60) by lra. cbn [add]. rewrite rem_24.
  eexists. split; [reflexivity|]. apply Rrem_nonneg; lra.
Qed.

Section DayOrNaN.

Variable JSDate : Type.
Variable newDate : string -> JSDate.
Variable getJulianDate : JSDate -> number.
Variable solar : number -> SolarParameters.

Lemma day_or_nan_generic (lat : number) (lon dl e : R) (date : string) :
  solar (getJulianDate (newDate date)) =
    {| declination := Fin dl; equationOfTime := Fin e |} ->
  e < 24 -> lon <= 180 ->
  exists t,
    calculatePrayerTimes JSDate newDate getJulianDate solar
      lat (Fin lon) date = Returns t /\
    allInDayOrNaN t.
Proof.
  intros Hs He Hlon. eexists. split; [reflexivity|].
  unfold allInDayOrNaN.
  cbn [Fajr Shuruq Dhuhr Asr Sunset Maghrib Isha].
  rewrite Hs. cbn [declination equationOfTime].
  rewrite div_15. cbn [sub add neg]. rewrite rem_24.
  assert (Hn : 0 <= Rrem (12 + - e + - (lon / 15) + 24) 24 < 24)
    by (apply Rrem_nonneg; lra).
  set (noon := Rrem (12 + - e + - (lon / 15) + 24) 24) in *.
  pose proof (times_of_angle noon _ Hn
                (acos_cases (hourAngleArg lat (Fin dl) (- Fin 15)%js)))
    as [HF HI].
  pose proof (times_of_angle noon _ Hn
                (acos_cases (hourAngleArg lat (Fin dl) (Fin (-0.833)))))
    as [HR HS].
  pose proof (times_of_angle noon _ Hn
                (acos_cases (asrArg lat (Fin dl)))) as [_ HA].
  split; [exact HF|]. split; [exact HR|].
  split; [exists noon; split; [reflexivity|exact Hn]|].
  split; [exact HA|]. split; [exact HS|].
  split; [|exact HI].
  apply maghrib_of_sunset. exact HS.
Qed.

End DayOrNaN.

(** X18: on a finite Julian date and for a finite longitude of at most 180
    degrees, whatever the latitude, each of the seven values returned is a
    time of [0, 24) or not-a-number, and Dhuhr is a time of [0, 24); in
    either file. *)
Theorem times_in_day_or_nan
    (JSDate : Type) (newDate : string -> JSDate)
    (getJulianDate : JSDate -> number)
    (lat : number) (lon jd : R) (date : string) :
  getJulianDate (newDate date) = Fin jd ->
  lon <= 180 ->
  (exists t,
     SalahUtils.calculatePrayerTimes newDate getJulianDate
       lat (Fin lon) date = Returns t /\
     allInDayOrNaN t) /\
  (exists t,
     Part000.calculatePrayerTimes newDate getJulianDate
       lat (Fin lon) date = Returns t /\
     allInDayOrNaN t).
Proof.
  intros Hj Hlon. split.
  - apply day_or_nan_generic
      with (dl := SalahReal.decl jd) (e := SalahReal.eot jd).
    + rewrite Hj. apply salah_solar_Fin.
    + pose proof (salah_eot_range jd). lra.
    + exact Hlon.
  - apply day_or_nan_generic
      with (dl := NaiveReal.decl jd) (e := NaiveReal.eot jd).
    + rewrite Hj. apply part_solar_Fin.
    + apply naive_eot_range.
    + exact Hlon.
Qed.

Lemma times_in_day_or_nan_witness :
  exists t,
    SalahUtils.calculatePrayerTimes (fun s : string => s)
      (fun _ => Fin jdMidYear) (Fin 80) (Fin 39.8262) "2000-06-29" =
      Returns t /\
    allInDayOrNaN t.
Proof.
  assert (H : 39.8262 <= 180) by lra.
  exact (proj1 (times_in_day_or_nan string (fun s => s)
                  (fun _ => Fin jdMidYear) (Fin 80) 39.8262 jdMidYear
                  "2000-06-29" eq_refl H)).
Defined.

(** X16: an undefined sunrise hour angle makes Shuruq, Sunset and Maghrib
    not-a-number, and an undefined Asr hour angle makes Asr not-a-number, on
    every input and in either file. *)
Theorem undefined_angles_spread
    (JSDate : Type) (newDate : string -> JSDate)
    (getJulianDate : JSDate -> number)
    (lat lon : number) (date : string) :
  (~ acosDomain
       (hourAngleArg lat
          (declination
             (SalahUtils.calculateSolarParameters
                (getJulianDate (newDate date))))
          (Fin (-0.833))) ->
   exists t,
     SalahUtils.calculatePrayerTimes newDate getJulianDate lat lon date =
       Returns t /\
     Shuruq t = NaN /\ Sunset t = NaN /\ Maghrib t = NaN) /\
  (~ acosDomain
       (asrArg lat
          (declination
             (SalahUtils.calculateSolarParameters
                (getJulianDate (newDate date))))) ->
   exists t,
     SalahUtils.calculatePrayerTimes newDate getJulianDate lat lon date =
       Returns t /\
     Asr t = NaN) /\
  (~ acosDomain
       (hourAngleArg lat
          (declination
             (Part000.calculateSolarParameters
                (getJulianDate (newDate date))))
          (Fin (-0.833))) ->
   exists t,
     Part000.calculatePrayerTimes newDate getJulianDate lat lon date =
       Returns t /\
     Shuruq t = NaN /\ Sunset t = NaN /\ Maghrib t = NaN) /\
  (~ acosDomain
       (asrArg lat
          (declination
             (Part000.calculateSolarParameters
                (getJulianDate (newDate date))))) ->
   exists t,
     Part000.calculatePrayerTimes newDate getJulianDate lat lon date =
       Returns t /\
     Asr t = NaN).
Proof.
  repeat split; intros H.
  - now apply undefined_sunrise_generic.
  - now apply undefined_asr_generic.
  - now apply undefined_sunrise_generic.
  - now apply undefined_asr_generic.
Qed.

(** Near the pole in summer the sun stays above every elevation lower than
    the colatitude. *)
Lemma summer_undefined (lat dl a : R) :
  0 < lat < 90 -> 90 - lat < a -> a <= 90 -> 0 < dl < PI / 2 ->
  ~ acosDomain (hourAngleArg (Fin lat) (Fin dl) (Fin (- a))).
Proof.
  intros Hlat Ha Ha' Hd. pose proof PI_RGT_0 as Hpi.
  set (phi := lat * PI / 180).
  assert (Hphi : 0 < phi < PI / 2) by (unfold phi; split; nra).
  assert (Hcl : 0 < cos phi) by (apply cos_gt_0; lra).
  assert (Hcd : 0 < cos dl) by (apply cos_gt_0; lra).
  assert (Hp : 0 < cos phi * cos dl) by now apply Rmult_lt_0_compat.
  pose proof (cos_plus phi dl) as Hplus.
  assert (Hdec : cos (phi + dl) < cos phi)
    by (apply cos_decreasing_1; lra).
  assert (Hshift : cos phi = sin ((90 - lat) * PI / 180)).
  { rewrite <- sin_shift. f_equal. unfold phi. lra. }
  assert (Hinc : sin ((90 - lat) * PI / 180) < sin (a * PI / 180))
    by (apply sin_increasing_1; nra).
  assert (Hneg : sin (- a * PI / 180) = - sin (a * PI / 180)).
  { rewrite <- sin_neg. f_equal. lra. }
  apply (below_domain _ ((sin (- a * PI / 180) - sin phi * sin dl) /
                           (cos phi * cos dl))).
  - apply hourAngleArg_Fin. fold phi. lra.
  - set (p := cos phi * cos dl) in *.
    pose proof (Rinv_0_lt_compat p Hp) as Hi.
    assert (Hone : p * / p = 1) by (field; lra).
    assert (Hnum : sin (- a * PI / 180) - sin phi * sin dl < - p) by lra.
    unfold Rdiv. nra.
Qed.

Lemma midyear_near_pole_undefined :
  ~ acosDomain
      (hourAngleArg (Fin 89.5) (Fin (SalahReal.decl jdMidYear))
         (Fin (-0.833))).
Proof.
  replace (-0.833) with (Ropp 0.833) by lra.
  apply summer_undefined; try lra. apply midyear_decl.
Qed.

Lemma undefined_angles_spread_witness :
  exists t,
    SalahUtils.calculatePrayerTimes (fun s : string => s)
      (fun _ => Fin jdMidYear) (Fin 89.5) (Fin 0) "2000-06-29" = Returns t /\
    Shuruq t = NaN /\ Sunset t = NaN /\ Maghrib t = NaN.
Proof.
  apply (proj1 (undefined_angles_spread string (fun s => s)
                  (fun _ => Fin jdMidYear) (Fin 89.5) (Fin 0) "2000-06-29")).
  rewrite (proj1 midyear_solar_declination).
  exact midyear_near_pole_undefined.
Defined.

(** ** The elevation of the later Asr *)




(** ** The order of the times *)










Section Ordering.

Variable JSDate : Type.
Variable newDate : string -> JSDate.
Variable getJulianDate : JSDate -> number.
Variable solar : number -> SolarParameters.


End Ordering.




